(** * Price monitor: history store, price parser and alert rules

    A shallow embedding of [price-monitor/price_monitor.py] (class
    [PriceMonitor]): the text parser [_parse_price], the alert rules of
    [_check_alert_conditions], the bounded per-product history kept by
    [check_all], and the monitoring cycle itself.

    Conventions of the embedding
    - a Python [str] is the list of its Unicode code points;
    - a Python [float] is an IEEE 754 binary64 value, given by [spec_float]
      with the operations of [SpecFloat] at precision 53 / emax 1024;
    - [None] in a slot that the source annotates [float] is kept as
      [option]: neither dataclasses nor the JSON history file enforce the
      annotation, and arithmetic on it raises [TypeError];
    - exceptions are values of [exn], carried by the result type [res];
    - what the browser does (its start, the page operations, its close)
      and what the clock reads are inputs of the cycle ([observation]), and
      so is the outcome of writing the history file; interrupts
      ([KeyboardInterrupt], a cancelled task), which are no [Exception],
      and the pause between two products are left out. *)

From Stdlib Require Import ZArith NArith List String Ascii Floats.
From Stdlib Require DecimalPos DecimalN.
From stdpp Require Import gmap list.

Set Default Proof Using "Type".
Set Warnings "-inexact-float".  (* decimal float literals are meant rounded *)

(* ===================================================================== *)
(** ** Python values: strings, exceptions, floats                          *)
(* ===================================================================== *)

Module Py.

(** *** Strings *)

Abbreviation codepoint := N (only parsing).
Abbreviation str := (list N) (only parsing).

(** An ASCII literal as a [str]. *)
Definition lit (s : string) : str :=
  map N_of_ascii (list_ascii_of_string s).

(** [c.isspace()] for a single character (Unicode 14 table). *)
Definition isspace (c : codepoint) : bool :=
  ((9 <=? c) && (c <=? 13) || (28 <=? c) && (c <=? 32)
   || (c =? 133) || (c =? 160) || (c =? 5760)
   || (8192 <=? c) && (c <=? 8202)
   || (c =? 8232) || (c =? 8233) || (c =? 8239) || (c =? 8287)
   || (c =? 12288))%N.

Fixpoint lstrip (s : str) : str :=
  match s with
  | c :: s' => if isspace c then lstrip s' else s
  | [] => []
  end.

Definition rstrip (s : str) : str := reverse (lstrip (reverse s)).

(** [s.strip()] *)
Definition strip (s : str) : str := rstrip (lstrip s).

Fixpoint startswith (s pre : str) : bool :=
  match pre, s with
  | [], _ => true
  | p :: pre', c :: s' => (p =? c)%N && startswith s' pre'
  | _ :: _, [] => false
  end.

(** [sub in s] *)
Fixpoint contains (sub s : str) : bool :=
  startswith s sub ||
  match s with
  | [] => false
  | _ :: s' => contains sub s'
  end.

(** [s.replace(c, '')] for a one-character [c]. *)
Definition remove_char (c : codepoint) (s : str) : str :=
  List.filter (fun x => negb (x =? c)%N) s.

(** *** Decimal digits

    Both [\d] in a [str] pattern and [float] accept every character of
    Unicode category Nd.  These come in runs of ten, in the order
    0 .. 9; [Nd_starts] lists the zero of each run (Unicode 14). *)
Definition Nd_starts : list codepoint :=
  [48; 1632; 1776; 1984; 2406; 2534; 2662; 2790; 2918; 3046; 3174; 3302;
   3430; 3558; 3664; 3792; 3872; 4160; 4240; 6112; 6160; 6470; 6608; 6784;
   6800; 6992; 7088; 7232; 7248; 42528; 43216; 43264; 43472; 43504; 43600;
   44016; 65296; 66720; 68912; 69734; 69872; 69942; 70096; 70384; 70736;
   70864; 71248; 71360; 71472; 71904; 72016; 72784; 73040; 73120; 92768;
   92864; 93008; 120782; 120792; 120802; 120812; 120822; 123200; 123632;
   125264; 130032]%N.

Definition decimal (c : codepoint) : option N :=
  match List.find (fun z => (z <=? c) && (c <? z + 10))%N Nd_starts with
  | Some z => Some (c - z)%N
  | None => None
  end.

Definition isdecimal (c : codepoint) : bool :=
  match decimal c with Some _ => true | None => false end.

(** *** Exceptions *)

Inductive exn :=
| TypeError | ValueError | AttributeError | ZeroDivisionError
| BrowserError        (* playwright's [Error], its [TimeoutError] included *)
| OSError.            (* a file that cannot be opened or written *)

Inductive res (A : Type) : Type :=
| Ok (a : A)
| Raise (e : exn).
Arguments Ok {A} a.
Arguments Raise {A} e.

Definition bind {A B} (m : res A) (k : A -> res B) : res B :=
  match m with
  | Ok a => k a
  | Raise e => Raise e
  end.

(** *** Floats *)

Abbreviation float := spec_float (only parsing).

Definition of_prim (x : PrimFloat.float) : float := Prim2SF x.

Definition zero : float := S754_zero false.
Definition sub (x y : float) : float := SFsub prec emax x y.
Definition mul (x y : float) : float := SFmul prec emax x y.
Definition neg (x : float) : float := SFopp x.
Definition abs (x : float) : float := SFabs x.
Definition eqb (x y : float) : bool := SFeqb x y.
Definition ltb (x y : float) : bool := SFltb x y.
Definition leb (x y : float) : bool := SFleb x y.
Definition gtb (x y : float) : bool := SFltb y x.

(** [x / y]: Python raises on a zero divisor instead of returning an
    infinity or a NaN. *)
Definition truediv (x y : float) : res float :=
  if eqb y zero then Raise ZeroDivisionError else Ok (SFdiv prec emax x y).

(** [bool(x)] for a float: everything but the two zeros. *)
Definition truthy (x : float) : bool := negb (eqb x zero).

(** A slot annotated [float] that may hold [None]: using it as a number
    raises [TypeError] when it does. *)
Definition num (v : option float) : res float :=
  match v with
  | Some x => Ok x
  | None => Raise TypeError
  end.

(** The correctly rounded binary64 value of [n / 10^k]. *)
Definition pow10 (k : nat) : positive := Nat.iter k (Pos.mul 10) 1%positive.

Definition of_decimal (n : N) (k : nat) : float :=
  match n with
  | N0 => zero
  | Npos p =>
      SFdiv prec emax (S754_finite false p 0) (S754_finite false (pow10 k) 0)
  end.

Fixpoint digits_value (acc : N) (s : str) : option N :=
  match s with
  | [] => Some acc
  | c :: s' =>
      match decimal c with
      | Some d => digits_value (10 * acc + d)%N s'
      | None => None
      end
  end.

Definition dot : codepoint := 46%N.

Fixpoint before_dot (s : str) : str :=
  match s with
  | [] => []
  | c :: s' => if (c =? dot)%N then [] else c :: before_dot s'
  end.

Fixpoint after_dot (s : str) : str :=
  match s with
  | [] => []
  | c :: s' => if (c =? dot)%N then s' else after_dot s'
  end.

(** [float(s)], on the unsigned decimal literals [digits], [digits.],
    [digits.digits] and [.digits]; every other string is rejected with
    [ValueError].  (The builtin also reads signs, exponents, underscores,
    surrounding blanks, [inf] and [nan]; the one call in this program
    hands it a match of the pattern [[\d,]+\.?\d*] with the commas
    removed, which has none of these.)  The conversion rounds to
    nearest-even and overflows to infinity. *)
Definition float_of_str (s : str) : res float :=
  let ip := before_dot s in
  let fp := after_dot s in
  match digits_value 0 (ip ++ fp) with
  | Some n =>
      if (length ip + length fp =? 0)%nat then Raise ValueError
      else Ok (of_decimal n (length fp))
  | None => Raise ValueError
  end.

(** *** Formatting

    [str(n)] for a natural number. *)
Fixpoint uint_codepoints (u : Decimal.uint) : str :=
  match u with
  | Decimal.Nil => []
  | Decimal.D0 u => 48%N :: uint_codepoints u
  | Decimal.D1 u => 49%N :: uint_codepoints u
  | Decimal.D2 u => 50%N :: uint_codepoints u
  | Decimal.D3 u => 51%N :: uint_codepoints u
  | Decimal.D4 u => 52%N :: uint_codepoints u
  | Decimal.D5 u => 53%N :: uint_codepoints u
  | Decimal.D6 u => 54%N :: uint_codepoints u
  | Decimal.D7 u => 55%N :: uint_codepoints u
  | Decimal.D8 u => 56%N :: uint_codepoints u
  | Decimal.D9 u => 57%N :: uint_codepoints u
  end.

Definition str_of_N (n : N) : str := uint_codepoints (N.to_uint n).

(** The integer nearest to [a / b], a tie going to the even one. *)
Definition round_half_even (a : N) (b : positive) : N :=
  let q := (a / Npos b)%N in
  let r := (a mod Npos b)%N in
  match (2 * r ?= Npos b)%N with
  | Lt => q
  | Gt => (q + 1)%N
  | Eq => if N.even q then q else (q + 1)%N
  end.

(** [m * 2^e * 10^d], rounded to an integer: the digits of a finite float
    of mantissa [m] and exponent [e] printed with [d] decimals. *)
Definition scaled_magnitude (d : nat) (m : positive) (e : Z) : N :=
  match e with
  | Z0 => Npos (m * pow10 d)
  | Zpos p => Npos (m * 2 ^ p * pow10 d)
  | Zneg p => round_half_even (Npos (m * pow10 d)) (2 ^ p)
  end.

(** [format(x, '.<d>f')], and [format(x, '+.<d>f')] when [plus] is set, for
    a precision [d] of at least one: the sign is that of [x] even when the
    digits round to zero; the digits are those of the exact value rounded
    half-even; infinities and NaN print as [inf] and [nan]. *)
Definition format_f (plus : bool) (d : nat) (x : float) : str :=
  let sign (s : bool) : str :=
    if s then [45%N] else if plus then [43%N] else [] in
  let fixed (n : N) : str :=
    let frac := str_of_N (n mod Npos (pow10 d)) in
    str_of_N (n / Npos (pow10 d)) ++ dot
      :: replicate (d - length frac) 48%N ++ frac in
  match x with
  | S754_nan => sign false ++ lit "nan"
  | S754_infinity s => sign s ++ lit "inf"
  | S754_zero s => sign s ++ fixed 0%N
  | S754_finite s m e => sign s ++ fixed (scaled_magnitude d m e)
  end.

(** [sep.join(parts)] *)
Fixpoint join (sep : str) (parts : list str) : str :=
  match parts with
  | [] => []
  | [p] => p
  | p :: rest => p ++ sep ++ join sep rest
  end.

End Py.

#[global] Instance res_ret : MRet Py.res := @Py.Ok.
#[global] Instance res_bind : MBind Py.res := fun A B k m => Py.bind m k.

(* ===================================================================== *)
(** ** The price parser                                                    *)
(* ===================================================================== *)

Definition comma : Py.codepoint := 44%N.

(** The character class [[\d,]]. *)
Definition digit_or_comma (c : Py.codepoint) : bool :=
  Py.isdecimal c || (c =? comma)%N.

Fixpoint take_while (f : Py.codepoint -> bool) (s : Py.str) : Py.str :=
  match s with
  | c :: s' => if f c then c :: take_while f s' else []
  | [] => []
  end.

Fixpoint drop_while (f : Py.codepoint -> bool) (s : Py.str) : Py.str :=
  match s with
  | c :: s' => if f c then drop_while f s' else s
  | [] => []
  end.

(** The match of [[\d,]+\.?\d*] anchored at the head of [s], which starts
    with a character of the class.  All three parts are greedy and the
    last two may be empty, so no backtracking takes place. *)
Definition match_here (s : Py.str) : Py.str :=
  let head := take_while digit_or_comma s in
  match drop_while digit_or_comma s with
  | c :: rest =>
      if (c =? Py.dot)%N then head ++ c :: take_while Py.isdecimal rest
      else head
  | [] => head
  end.

(** [re.search(r'[\d,]+\.?\d*', s)]: the leftmost match, [match.group()]. *)
Fixpoint re_search (s : Py.str) : option Py.str :=
  match s with
  | [] => None
  | c :: s' => if digit_or_comma c then Some (match_here s) else re_search s'
  end.

(** The mis-encoded symbol literals of the source, as the code points the
    interpreter reads from the UTF-8 file. *)
Definition lit_eur : Py.str := [226; 8218; 172]%N.
Definition lit_gbp : Py.str := [194; 163]%N.
Definition lit_jpy : Py.str := [194; 165]%N.

Definition detect_currency (text : Py.str) : Py.str :=
  if Py.contains lit_eur text then Py.lit "EUR"
  else if Py.contains lit_gbp text then Py.lit "GBP"
  else if Py.contains lit_jpy text then Py.lit "JPY"
  else Py.lit "USD".

(** [PriceMonitor._parse_price].  [text] is what [text_content()] gave,
    [None] included. *)
Definition _parse_price (text : option Py.str)
  : Py.res (option Py.float * Py.str) :=
  match text with
  | None => Py.Raise Py.AttributeError
  | Some text =>
      let text := Py.strip text in
      let currency := detect_currency text in
      match re_search (Py.remove_char comma text) with
      | Some group =>
          match Py.float_of_str (Py.remove_char comma group) with
          | Py.Ok price => Py.Ok (Some price, currency)
          | Py.Raise Py.ValueError => Py.Ok (None, currency)
          | Py.Raise e => Py.Raise e
          end
      | None => Py.Ok (None, currency)
      end
  end.

(* ===================================================================== *)
(** ** Data model                                                          *)
(* ===================================================================== *)

Module Product.
(** [@dataclass class Product] *)
Record t := mk {
  url : Py.str;
  name : Py.str;
  price_selector : Py.str;
  target_price : option Py.float;        (* Optional[float] = None *)
  alert_on_any_change : bool;            (* = False *)
  alert_threshold_percent : Py.float     (* = 5.0 *)
}.
End Product.

Module PriceRecord.
(** [@dataclass class PriceRecord]; [asdict] of it is the dictionary kept
    in the history, with the same five entries. *)
Record t := mk {
  url : Py.str;
  name : Py.str;
  price : option Py.float;
  currency : Py.str;
  timestamp : Py.str
}.
End PriceRecord.

(** The three values of [alert_type]: "drop", "target_reached", "change". *)
Inductive alert_kind := kind_drop | kind_target_reached | kind_change.

Module PriceAlert.
(** [@dataclass class PriceAlert] *)
Record t := mk {
  product : Py.str;
  url : Py.str;
  old_price : option Py.float;
  new_price : option Py.float;
  change_percent : Py.float;
  alert_type : alert_kind;
  timestamp : Py.str
}.
End PriceAlert.

(** [self.history : Dict[str, List[Dict]]] *)
Abbreviation history_t := (gmap (list N) (list PriceRecord.t)) (only parsing).

(** What one call of [scrape_price] meets.  Starting the browser
    ([async_playwright()], [launch], [new_context], [add_init_script],
    [new_page]) comes before the [try], and [browser.close()] sits in its
    [finally]: of the whole function only the page operations are under
    the [except Exception]. *)
Inductive page_result :=
| startup_raised (e : Py.exn)          (* an exception before the [try] *)
| page_raised                          (* an [Exception] inside the [try] *)
| no_element                           (* [query_selector] gave [None] *)
| text_content (t : option Py.str)     (* the element's [text_content()] *)
| close_raised (e : Py.exn).           (* [browser.close()] raised *)

Record observation := mk_observation {
  page : page_result;
  now_isoformat : Py.str               (* [datetime.now().isoformat()] *)
}.

(** The literals [100] and [0.01]. *)
Definition hundred : Py.float := Eval vm_compute in Py.of_decimal 100 0.
Definition one_hundredth : Py.float := Eval vm_compute in Py.of_decimal 1 2.

(** [l[-n:]] for [n > 0]. *)
Definition slice_last {A} (n : nat) (l : list A) : list A :=
  drop (length l - n) l.

(* ===================================================================== *)
(** ** The monitor                                                         *)
(* ===================================================================== *)

Section Monitor.

(** [hashlib.md5(s.encode()).hexdigest()] *)
Variable md5_hexdigest : Py.str -> Py.str.

Definition _get_product_key (url : Py.str) : Py.str :=
  take 12 (md5_hexdigest url).

(** [PriceMonitor.scrape_price], given what the call meets.  An exception
    from the start of the browser never enters the [try] and leaves the
    function; one from [browser.close()] leaves it from the [finally],
    whatever the [try] had come to. *)
Definition scrape_price (product : Product.t) (obs : observation)
  : Py.res (option PriceRecord.t) :=
  match page obs with
  | startup_raised e => Py.Raise e
  | text_content t =>
      match _parse_price t with
      | Py.Ok (Some price, currency) =>
          if Py.truthy price then
            mret (Some (PriceRecord.mk (Product.url product)
                          (Product.name product) (Some price) currency
                          (now_isoformat obs)))
          else mret None
      | Py.Ok (None, _) => mret None
      | Py.Raise _ => mret None          (* except Exception: print *)
      end
  | no_element => mret None
  | page_raised => mret None             (* except Exception: print *)
  | close_raised e => Py.Raise e
  end.

(** The percent change of [_check_alert_conditions]. *)
Definition percent_change (last_price : Py.float)
    (current_price : option Py.float) : Py.res Py.float :=
  if Py.gtb last_price Py.zero then
    cur ← Py.num current_price;
    q ← Py.truediv (Py.sub cur last_price) last_price;
    mret (Py.mul q hundred)
  else mret Py.zero.

(** The tail of the [if]/[elif] chain: the drop and the any-change
    branch. *)
Definition drop_or_change (product : Product.t) (change_percent : Py.float)
  : option alert_kind :=
  if Py.leb change_percent (Py.neg (Product.alert_threshold_percent product))
  then Some kind_drop
  else if Product.alert_on_any_change product
          && Py.gtb (Py.abs change_percent) one_hundredth
  then Some kind_change
  else None.

(** The whole chain.  [product.target_price and ...] only looks at the
    current price when the target is neither [None] nor zero. *)
Definition choose_alert_type (product : Product.t)
    (last_price : Py.float) (current_price : option Py.float)
    (change_percent : Py.float) : Py.res (option alert_kind) :=
  match Product.target_price product with
  | Some target =>
      if Py.truthy target then
        cur ← Py.num current_price;
        if Py.leb cur target then
          mret (if Py.gtb last_price target then Some kind_target_reached else None)
        else mret (drop_or_change product change_percent)
      else mret (drop_or_change product change_percent)
  | None => mret (drop_or_change product change_percent)
  end.

(** [PriceMonitor._check_alert_conditions] *)
Definition _check_alert_conditions (history : history_t)
    (product : Product.t) (current : PriceRecord.t)
  : Py.res (option PriceAlert.t) :=
  let key := _get_product_key (Product.url product) in
  let records := default [] (history !! key) in
  match last records with
  | None => mret None                              (* if not history *)
  | Some prior =>
      (* [last_price > 0] is a TypeError when the stored price is None *)
      last_price ← Py.num (PriceRecord.price prior);
      change_percent ← percent_change last_price (PriceRecord.price current);
      kind ← choose_alert_type product last_price (PriceRecord.price current)
               change_percent;
      match kind with
      | Some k =>
          mret (Some (PriceAlert.mk (Product.name product)
                        (Product.url product) (Some last_price)
                        (PriceRecord.price current) change_percent k
                        (PriceRecord.timestamp current)))
      | None => mret None
      end
  end.

(** The history update of [check_all] ("Save to history", "Keep last 100
    records per product"). *)
Definition save_to_history (history : history_t) (key : Py.str)
    (record : PriceRecord.t) : history_t :=
  let h1 := match history !! key with
            | None => <[key := []]> history
            | Some _ => history
            end in
  let h2 := alter (fun l => l ++ [record]) key h1 in
  alter (slice_last 100) key h2.

(** The loop of [check_all]: the products still to visit, each with what
    its scrape will meet; the alerts collected so far; the history.
    [check_all] has no handler: an exception, from the scrape or from the
    evaluation, leaves the loop with the history as it then is. *)
Fixpoint check_all_loop (todo : list (Product.t * observation))
    (alerts : list PriceAlert.t) (history : history_t)
  : Py.res (list PriceAlert.t) * history_t :=
  match todo with
  | [] => (Py.Ok alerts, history)
  | (product, obs) :: rest =>
      match scrape_price product obs with
      | Py.Ok (Some record) =>
          match _check_alert_conditions history product record with
          | Py.Ok alert =>
              let alerts' := match alert with
                             | Some a => alerts ++ [a]
                             | None => alerts
                             end in
              let key := _get_product_key (Product.url product) in
              check_all_loop rest alerts' (save_to_history history key record)
          | Py.Raise e => (Py.Raise e, history)
          end
      | Py.Ok None => check_all_loop rest alerts history
      | Py.Raise e => (Py.Raise e, history)
      end
  end.

(** [PriceMonitor._save_history]: it writes the file and changes nothing
    in memory; [save_error] is the exception of [open] or [json.dump], if
    there is one. *)
Definition _save_history (save_error : option Py.exn) : Py.res unit :=
  match save_error with
  | Some e => Py.Raise e
  | None => mret tt
  end.

(** [PriceMonitor]: the two attributes the cycle uses. *)
Record PriceMonitor := mk_monitor {
  products : list Product.t;
  history : history_t
}.

(** [PriceMonitor.check_all]; [world] gives, product by product, what the
    scrapes of this cycle meet, [save_error] what the final
    [_save_history()] meets. *)
Definition check_all (self : PriceMonitor) (world : list observation)
    (save_error : option Py.exn)
  : Py.res (list PriceAlert.t) * PriceMonitor :=
  let '(r, h) := check_all_loop (zip (products self) world) [] (history self) in
  (alerts ← r; _ ← _save_history save_error; mret alerts,
   mk_monitor (products self) h).

End Monitor.

(* ===================================================================== *)
(** ** The rest of the monitor: registration, lookup, messages             *)
(* ===================================================================== *)

Section MonitorApi.

Variable md5_hexdigest : Py.str -> Py.str.

(** [PriceMonitor.add_product] *)
Definition add_product (self : PriceMonitor) (product : Product.t)
  : PriceMonitor :=
  mk_monitor (products self ++ [product]) (history self).

(** [PriceMonitor.get_price_history] *)
Definition get_price_history (self : PriceMonitor) (url : Py.str)
  : list PriceRecord.t :=
  default [] (history self !! _get_product_key md5_hexdigest url).

End MonitorApi.

(** The literals of [format_alert_message], as the code points the
    interpreter reads from the file. *)
Definition lit_header : Py.str :=
  [240; 376; 8221; 8221]%N ++ Py.lit " Price Alerts!" ++ [10%N].
Definition lit_down : Py.str := [240; 376; 8220; 8240]%N.
Definition lit_up : Py.str := [240; 376; 8220; 710]%N.
Definition lit_arrow : Py.str := [226; 8224; 8217]%N.
Definition newline : Py.str := [10%N].

(** [alert.alert_type], the string. *)
Definition alert_type_str (k : alert_kind) : Py.str :=
  match k with
  | kind_drop => Py.lit "drop"
  | kind_target_reached => Py.lit "target_reached"
  | kind_change => Py.lit "change"
  end.

(** One pass of the loop of [format_alert_message]: the text appended for
    [alert].  Formatting [None] with [.2f] is a [TypeError]. *)
Definition format_alert (alert : PriceAlert.t) : Py.res Py.str :=
  let emoji := if Py.ltb (PriceAlert.change_percent alert) Py.zero
               then lit_down else lit_up in
  old_price ← Py.num (PriceAlert.old_price alert);
  new_price ← Py.num (PriceAlert.new_price alert);
  mret (emoji ++ Py.lit " **" ++ PriceAlert.product alert ++ Py.lit "**"
          ++ newline
        ++ Py.lit "   $" ++ Py.format_f false 2 old_price ++ Py.lit " "
          ++ lit_arrow ++ Py.lit " $" ++ Py.format_f false 2 new_price
          ++ Py.lit " "
        ++ Py.lit "(" ++ Py.format_f true 1 (PriceAlert.change_percent alert)
          ++ Py.lit "%)" ++ newline
        ++ Py.lit "   Type: " ++ alert_type_str (PriceAlert.alert_type alert)
          ++ newline
        ++ Py.lit "   Link: " ++ PriceAlert.url alert ++ newline).

Fixpoint format_alerts (alerts : list PriceAlert.t) : Py.res (list Py.str) :=
  match alerts with
  | [] => mret []
  | alert :: rest =>
      message ← format_alert alert;
      messages ← format_alerts rest;
      mret (message :: messages)
  end.

(** [format_alert_message] *)
Definition format_alert_message (alerts : list PriceAlert.t) : Py.res Py.str :=
  match alerts with
  | [] => mret []
  | _ :: _ =>
      messages ← format_alerts alerts;
      mret (Py.join newline (lit_header :: messages))
  end.

(* ===================================================================== *)
(** ** Specification vocabulary                                            *)
(* ===================================================================== *)

(** A float that is a positive zero, a positive finite number or plus
    infinity: what the conversion of an unsigned literal can give. *)
Definition unsigned_float (x : Py.float) : Prop :=
  match x with
  | S754_zero false | S754_finite false _ _ | S754_infinity false => True
  | _ => False
  end.

(** A string of decimal digits. *)
Definition decimals (s : Py.str) : Prop := Forall (λ c, Py.isdecimal c = true) s.

(** A string without a decimal digit. *)
Definition digitless (s : Py.str) : Prop :=
  Forall (λ c, Py.isdecimal c = false) s.

(** [s] does not go on with a digit: it is empty, or starts with a
    character that is no decimal digit. *)
Definition no_digit_ahead (s : Py.str) : Prop :=
  match s with
  | [] => True
  | c :: _ => Py.isdecimal c = false
  end.

(** [s] goes on with neither a digit nor a dot. *)
Definition no_number_ahead (s : Py.str) : Prop :=
  match s with
  | [] => True
  | c :: _ => Py.isdecimal c = false ∧ c ≠ Py.dot
  end.

(** The characters of [sub] stand in [text], next to each other and in
    this order. *)
Definition occurs (sub text : Py.str) : Prop :=
  ∃ before after, text = before ++ sub ++ after.

(** A string of whitespace, in the sense of [str.isspace]. *)
Definition spaces (s : Py.str) : Prop := Forall (λ c, Py.isspace c = true) s.


(** The records the scrapes of a cycle produce for the products filed
    under [key], in the order of the cycle. *)
Definition scraped (md5_hexdigest : Py.str → Py.str) (key : Py.str)
    (todo : list (Product.t * observation)) : list PriceRecord.t :=
  omap (λ po, if decide (_get_product_key md5_hexdigest (Product.url po.1) = key)
              then match scrape_price po.1 po.2 with
                   | Py.Ok record => record
                   | Py.Raise _ => None
                   end
              else None) todo.

(** The alert [a] comes from the visit [po] of a cycle: it names the
    product visited, carries the time of that observation and has both
    prices set. *)
Definition alert_of_visit (a : PriceAlert.t) (po : Product.t * observation)
  : Prop :=
  PriceAlert.url a = Product.url po.1
  ∧ PriceAlert.product a = Product.name po.1
  ∧ PriceAlert.timestamp a = now_isoformat po.2
  ∧ is_Some (PriceAlert.old_price a)
  ∧ is_Some (PriceAlert.new_price a).

(** An alert whose two prices are set. *)
Definition priced_alert (a : PriceAlert.t) : Prop :=
  is_Some (PriceAlert.old_price a) ∧ is_Some (PriceAlert.new_price a).

(** The numeral of [n / 100] with two decimals: "12.34" for 1234, "0.05"
    for 5. *)
Definition two_decimals (n : N) : Py.str :=
  Py.str_of_N (n / 100) ++ Py.dot
    :: replicate (2 - length (Py.str_of_N (n mod 100))) 48%N
    ++ Py.str_of_N (n mod 100).

(** The check that the two fraction digits printed for [b] are two
    decimal digits of value [b]. *)
Definition frac2_ok (b : N) : bool :=
  let text := replicate (2 - length (Py.str_of_N b)) 48%N ++ Py.str_of_N b in
  (length text =? 2)%nat && forallb Py.isdecimal text
  && match Py.digits_value 0 text with
     | Some v => (v =? b)%N
     | None => false
     end.

(** A run of appends to one product's history, oldest first. *)
Definition appends (h : gmap (list N) (list PriceRecord.t)) (key : Py.str)
    (rs : list PriceRecord.t) : gmap (list N) (list PriceRecord.t) :=
  foldl (λ h r, save_to_history h key r) h rs.

(** The records kept for a product ([self.history.get(key, [])]). *)
Definition records_of (h : gmap (list N) (list PriceRecord.t)) (key : Py.str)
  : list PriceRecord.t :=
  default [] (h !! key).


(** The scrape lets the exception [e] out: it was raised while the browser
    was started, or while it was closed. *)
Definition escapes (obs : observation) (e : Py.exn) : Prop :=
  page obs = startup_raised e ∨ page obs = close_raised e.

(** The browser starts and closes without an exception. *)
Definition browser_ok (obs : observation) : Prop :=
  ∀ e, ¬ escapes obs e.


Definition positive_price (r : PriceRecord.t) : Prop :=
  ∃ x, PriceRecord.price r = Some x ∧ Py.gtb x Py.zero = true.

Definition positive_history (h : gmap (list N) (list PriceRecord.t)) : Prop :=
  ∀ key l, h !! key = Some l → Forall positive_price l.

(* ===================================================================== *)
(** ** Sample values                                                       *)
(* ===================================================================== *)

(** A stand-in for the digest in closed examples; the theorems below hold
    for every digest function. *)
Definition sample_digest (s : Py.str) : Py.str := s.

Definition sample_url : Py.str := Py.lit "https://shop.example/widget".
Definition sample_name : Py.str := Py.lit "Widget".

(** The decimal literal [n / 10^k] as a float, e.g. [dec 2999 2] for
    [29.99]. *)
Definition dec (n : N) (k : nat) : Py.float := Py.of_decimal n k.

Definition sample_product (target : option Py.float) (any_change : bool)
    (threshold : Py.float) : Product.t :=
  Product.mk sample_url sample_name (Py.lit ".price") target any_change threshold.

Definition sample_record (price : option Py.float) (timestamp : string)
  : PriceRecord.t :=
  PriceRecord.mk sample_url sample_name price (Py.lit "USD") (Py.lit timestamp).

Definition sample_alert (old new : Py.float) (percent : Py.float)
    (kind : alert_kind) (timestamp : string) : PriceAlert.t :=
  PriceAlert.mk sample_name sample_url (Some old) (Some new) percent kind
    (Py.lit timestamp).

(** A scrape that finds [text] on the page at time [now]. *)
Definition sample_text (text now : string) : observation :=
  mk_observation (text_content (Some (Py.lit text))) (Py.lit now).

(** Records numbered [first], [first + 1], ... with prices 1.00, 2.00, ... *)
Definition numbered_records (first count : nat) : list PriceRecord.t :=
  map (λ i, PriceRecord.mk sample_url sample_name
              (Some (dec (N.of_nat (100 * S i)) 2)) (Py.lit "USD")
              [N.of_nat i])
      (seq first count).

(** A monitor with one product listed twice and an empty history, and a
    world in which the price is 10.00 and then 9.00. *)
Definition sample_monitor : PriceMonitor :=
  mk_monitor [sample_product None true (dec 50 1);
              sample_product None true (dec 50 1)] ∅.

Definition sample_world : list observation :=
  [sample_text "$10.00" "t1"; sample_text "$9.00" "t2"].


Definition sample_drop_alert : PriceAlert.t :=
  sample_alert (dec 1000 2) (dec 900 2) (Py.of_prim (-10)) kind_drop "t2".

(* ===================================================================== *)
(** ** Facts about floats                                                  *)
(* ===================================================================== *)

Section FloatFacts.

Lemma shr_1_nonneg mrs : (0 <= shr_m mrs)%Z -> (0 <= shr_m (shr_1 mrs))%Z.
Proof.
  destruct mrs as [m r s]; simpl.
  destruct m as [|[p|p|]|[p|p|]]; simpl; lia.
Qed.

Lemma iter_shr_1_nonneg n mrs :
  (0 <= shr_m mrs)%Z -> (0 <= shr_m (SpecFloat.iter_pos shr_1 n mrs))%Z.
Proof.
  revert mrs; induction n as [n IH|n IH|]; intros mrs H; simpl.
  - apply IH, IH, shr_1_nonneg, H.
  - apply IH, IH, H.
  - apply shr_1_nonneg, H.
Qed.

Lemma shr_fexp_nonneg m e l :
  (0 <= m)%Z -> (0 <= shr_m (fst (shr_fexp prec emax m e l)))%Z.
Proof.
  intros H. unfold shr_fexp, shr.
  assert (H0 : (0 <= shr_m (shr_record_of_loc m l))%Z)
    by (destruct l as [|[]]; exact H).
  destruct (_ - e)%Z; simpl; auto using iter_shr_1_nonneg.
Qed.

Lemma round_nearest_even_nonneg m l :
  (0 <= m)%Z -> (0 <= round_nearest_even m l)%Z.
Proof.
  intros H. destruct l as [|[]]; simpl; try lia.
  destruct (Z.even m); lia.
Qed.

Lemma binary_round_aux_unsigned m e l :
  (0 <= m)%Z -> unsigned_float (binary_round_aux prec emax false m e l).
Proof.
  intros H. unfold binary_round_aux.
  pose proof (shr_fexp_nonneg m e l H) as H1.
  destruct (shr_fexp prec emax m e l) as [mrs' e']; simpl in H1.
  pose proof (shr_fexp_nonneg _ e' loc_Exact
                (round_nearest_even_nonneg _ (loc_of_shr_record mrs') H1)) as H2.
  destruct (shr_fexp prec emax _ e' loc_Exact) as [mrs'' e'']; simpl in H2.
  destruct (shr_m mrs'') as [|q|q]; simpl; [exact I| |lia].
  destruct (Z.leb e'' _); exact I.
Qed.

Lemma SFdiv_core_binary_nonneg a e1 b e2 :
  (0 <= fst (fst (SFdiv_core_binary prec emax (Zpos a) e1 (Zpos b) e2)))%Z.
Proof.
  unfold SFdiv_core_binary.
  set (s := (e1 - e2 - _)%Z).
  set (m' := match s with Zpos _ => Z.shiftl (Zpos a) s | Z0 => Zpos a | Zneg _ => 0%Z end).
  assert (Hm : (0 <= m')%Z).
  { subst m'. destruct s; try lia. apply Z.shiftl_nonneg. lia. }
  pose proof (Z.div_pos m' (Zpos b) Hm eq_refl) as Hq.
  unfold Z.div in Hq.
  destruct (Z.div_eucl m' (Zpos b)) as [q r]. exact Hq.
Qed.

Lemma of_decimal_unsigned n k : unsigned_float (Py.of_decimal n k).
Proof.
  destruct n as [|p]; [exact I|].
  unfold Py.of_decimal, SFdiv.
  pose proof (SFdiv_core_binary_nonneg p 0 (Py.pow10 k) 0) as H.
  destruct (SFdiv_core_binary prec emax (Zpos p) 0 (Zpos (Py.pow10 k)) 0)
    as [[mz ez] lz].
  apply binary_round_aux_unsigned, H.
Qed.

Lemma float_of_str_unsigned s x :
  Py.float_of_str s = Py.Ok x -> unsigned_float x.
Proof.
  unfold Py.float_of_str.
  destruct (Py.digits_value _ _); [|discriminate].
  destruct (_ =? _)%nat; [discriminate|].
  intros [= <-]. apply of_decimal_unsigned.
Qed.

(** An unsigned float is truthy exactly when it is strictly positive. *)
Lemma unsigned_truthy_positive x :
  unsigned_float x -> Py.truthy x = true -> Py.gtb x Py.zero = true.
Proof. destruct x as [[]|[]| |[] m e]; simpl; intros H; try done. Qed.

(** [x > 0] excludes [x == 0]: the divisor of the percent change is
    never zero. *)
Lemma gtb_zero_not_eqb x : Py.gtb x Py.zero = true -> Py.eqb x Py.zero = false.
Proof. destruct x as [[]|[]| |[] m e]; simpl; intros H; try done. Qed.

(** The conversion agrees with the hardware reading of the same literals,
    down to the subnormal range and up to overflow. *)
Lemma of_decimal_agrees_with_literals :
  Py.of_decimal 2999 2 = Py.of_prim 29.99
  ∧ Py.of_decimal 123456 2 = Py.of_prim 1234.56
  ∧ Py.of_decimal 1 1 = Py.of_prim 0.1
  ∧ Py.of_decimal 5 324 = Py.of_prim 5e-324
  ∧ Py.of_decimal 2 324 = Py.of_prim 0
  ∧ Py.of_decimal 17976931348623157 0 = Py.of_prim 17976931348623157
  ∧ Py.of_decimal (10 ^ 309) 0 = Py.of_prim infinity
  ∧ hundred = Py.of_prim 100
  ∧ one_hundredth = Py.of_prim 0.01.
Proof. repeat split; by vm_compute. Qed.

End FloatFacts.

(* ===================================================================== *)
(** ** The parser: currency and number                                     *)
(* ===================================================================== *)

Section ParserFacts.

Implicit Types (s text : Py.str) (c : Py.codepoint).

Lemma lstrip_subseteq s : Py.lstrip s ⊆ s.
Proof.
  induction s as [|c s IH]; simpl; [done|].
  destruct (Py.isspace c); [|done].
  intros x Hx. right. by apply IH.
Qed.

Lemma strip_subseteq s : Py.strip s ⊆ s.
Proof.
  unfold Py.strip, Py.rstrip. intros c Hc.
  apply lstrip_subseteq.
  rewrite elem_of_reverse in Hc. apply lstrip_subseteq in Hc.
  by rewrite elem_of_reverse in Hc.
Qed.

Lemma remove_char_subseteq c s : Py.remove_char c s ⊆ s.
Proof.
  intros x Hx. unfold Py.remove_char in Hx.
  rewrite list_elem_of_In in Hx. apply filter_In in Hx as [Hx _].
  by rewrite list_elem_of_In.
Qed.

(** The pattern needs a character of [[\d,]] to start a match. *)
Lemma re_search_None s :
  (∀ c, c ∈ s → digit_or_comma c = false) → re_search s = None.
Proof.
  induction s as [|c s IH]; intros H; simpl; [done|].
  rewrite (H c) by (by left).
  apply IH. intros x Hx. apply H. by right.
Qed.

Lemma remove_comma_no_class text :
  (∀ c, c ∈ text → Py.isdecimal c = false) →
  ∀ c, c ∈ Py.remove_char comma text → digit_or_comma c = false.
Proof.
  intros H c Hc. unfold Py.remove_char in Hc.
  rewrite list_elem_of_In in Hc. apply filter_In in Hc as [Hin Hne].
  rewrite <- list_elem_of_In in Hin.
  unfold digit_or_comma. rewrite (H c Hin). simpl.
  by destruct (c =? comma)%N.
Qed.

(** A text without a decimal digit has no price; its currency is the
    detected one. *)
Lemma _parse_price_no_digit text :
  (∀ c, c ∈ text → Py.isdecimal c = false) →
  _parse_price (Some text) = Py.Ok (None, detect_currency (Py.strip text)).
Proof.
  intros H. unfold _parse_price.
  rewrite re_search_None; [done|].
  apply remove_comma_no_class.
  intros c Hc. apply H. by apply strip_subseteq.
Qed.

(** *** A text with a digit always has a price *)

Lemma isdecimal_range c :
  Py.isdecimal c = true → ∃ z, In z Py.Nd_starts ∧ (z <= c < z + 10)%N.
Proof.
  unfold Py.isdecimal, Py.decimal.
  destruct (find _ _) as [z|] eqn:E; [intros _|done].
  apply find_some in E as [Hin Hr]. exists z. split; [done|].
  apply andb_prop in Hr as [H1 H2].
  apply N.leb_le in H1. apply N.ltb_lt in H2. lia.
Qed.

Lemma isdecimal_not_space c : Py.isdecimal c = true → Py.isspace c = false.
Proof.
  intros (z & Hin & Hr)%isdecimal_range.
  unfold Py.isspace.
  rewrite !orb_false_iff, !andb_false_iff, !N.leb_gt, !N.eqb_neq.
  unfold Py.Nd_starts in Hin. simpl in Hin.
  repeat (destruct Hin as [<-|Hin]; [lia|]). done.
Qed.

Lemma isdecimal_not_comma c : Py.isdecimal c = true → c ≠ comma.
Proof. by intros H ->. Qed.

Lemma isdecimal_not_dot c : Py.isdecimal c = true → (c =? Py.dot)%N = false.
Proof. intros H. apply N.eqb_neq. by intros ->. Qed.

Lemma lstrip_keeps c s : c ∈ s → Py.isspace c = false → c ∈ Py.lstrip s.
Proof.
  intros Hin Hc. induction s as [|x s IH]; simpl; [done|].
  destruct (Py.isspace x) eqn:Hx; [|done].
  apply elem_of_cons in Hin as [->|Hin]; [congruence|by apply IH].
Qed.

Lemma strip_keeps c s : c ∈ s → Py.isspace c = false → c ∈ Py.strip s.
Proof.
  intros Hin Hc. unfold Py.strip, Py.rstrip.
  rewrite elem_of_reverse. apply lstrip_keeps; [|done].
  rewrite elem_of_reverse. by apply lstrip_keeps.
Qed.

Lemma remove_char_keeps x c s : c ∈ s → c ≠ x → c ∈ Py.remove_char x s.
Proof.
  intros Hin Hc. unfold Py.remove_char.
  rewrite list_elem_of_In. apply filter_In. rewrite <- list_elem_of_In.
  split; [done|]. by apply negb_true_iff, N.eqb_neq.
Qed.

Lemma remove_char_absent x s : x ∉ Py.remove_char x s.
Proof.
  unfold Py.remove_char. rewrite list_elem_of_In, filter_In.
  intros [_ H]. apply negb_true_iff, N.eqb_neq in H. done.
Qed.

Lemma remove_char_id x s : x ∉ s → Py.remove_char x s = s.
Proof.
  unfold Py.remove_char. induction s as [|c s IH]; simpl; [done|].
  intros H. apply not_elem_of_cons in H as [Hx Hs].
  assert (E : (c =? x)%N = false) by (apply N.eqb_neq; congruence).
  rewrite E. simpl. by rewrite IH.
Qed.

Lemma decimals_no_comma s : decimals s → comma ∉ s.
Proof.
  intros H Hin. eapply Forall_forall in H; [|exact Hin]. done.
Qed.

Lemma take_while_isdecimal s : decimals (take_while Py.isdecimal s).
Proof.
  induction s as [|c s IH]; simpl; [constructor|].
  destruct (Py.isdecimal c) eqn:E; by constructor.
Qed.

Lemma take_while_class s :
  comma ∉ s → decimals (take_while digit_or_comma s).
Proof.
  induction s as [|c s IH]; simpl; intros H; [constructor|].
  apply not_elem_of_cons in H as [Hc Hs].
  unfold digit_or_comma at 1.
  destruct (Py.isdecimal c) eqn:E; simpl.
  - constructor; [done|by apply IH].
  - assert (E' : (c =? comma)%N = false) by (apply N.eqb_neq; congruence).
    rewrite E'. constructor.
Qed.

Lemma digits_value_decimals s acc : decimals s → is_Some (Py.digits_value acc s).
Proof.
  intros H. revert acc. induction H as [|c s Hc _ IH]; intros acc; simpl; [done|].
  unfold Py.isdecimal in Hc. destruct (Py.decimal c); [apply IH|done].
Qed.

Lemma before_dot_decimals s t :
  decimals s → Py.before_dot (s ++ Py.dot :: t) = s ∧ Py.after_dot (s ++ Py.dot :: t) = t.
Proof.
  induction 1 as [|c s Hc _ [IH1 IH2]]; simpl; [done|].
  rewrite (isdecimal_not_dot c Hc). by rewrite IH1, IH2.
Qed.

Lemma before_dot_decimals_only s :
  decimals s → Py.before_dot s = s ∧ Py.after_dot s = [].
Proof.
  induction 1 as [|c s Hc _ [IH1 IH2]]; simpl; [done|].
  rewrite (isdecimal_not_dot c Hc). by rewrite IH1, IH2.
Qed.

(** [float] accepts [digits] and [digits.digits]. *)
Lemma float_of_str_decimals s t :
  decimals s → decimals t → s ≠ [] →
  (∃ n, Py.float_of_str s = Py.Ok (Py.of_decimal n 0)) ∧
  (∃ n, Py.float_of_str (s ++ Py.dot :: t) = Py.Ok (Py.of_decimal n (length t))).
Proof.
  intros Hs Ht Hne. unfold Py.float_of_str. split.
  - destruct (before_dot_decimals_only s Hs) as [-> ->].
    rewrite app_nil_r.
    destruct (digits_value_decimals s 0%N Hs) as [n ->].
    destruct s; [done|]. simpl. by exists n.
  - destruct (before_dot_decimals s t Hs) as [-> ->].
    assert (Hst : decimals (s ++ t)) by by apply Forall_app.
    destruct (digits_value_decimals _ 0%N Hst) as [n ->].
    destruct s; [done|]. simpl. by exists n.
Qed.

(** The matched token, commas removed, is always a literal [float]
    accepts: the [ValueError] handler is never entered. *)
Lemma float_of_match c s :
  digit_or_comma c = true → comma ∉ c :: s →
  ∃ n k, Py.float_of_str (Py.remove_char comma (match_here (c :: s)))
         = Py.Ok (Py.of_decimal n k).
Proof.
  intros Hc Hno.
  pose proof (take_while_class (c :: s) Hno) as Hhead.
  assert (Hne : take_while digit_or_comma (c :: s) ≠ [])
    by (simpl; by rewrite Hc).
  unfold match_here.
  set (head := take_while digit_or_comma (c :: s)) in *.
  destruct (drop_while digit_or_comma (c :: s)) as [|d rest].
  - rewrite remove_char_id by by apply decimals_no_comma.
    destruct (float_of_str_decimals head [] Hhead) as [[n Hn] _]; [constructor|done|].
    by exists n, 0%nat.
  - destruct (d =? Py.dot)%N eqn:Hd.
    + apply N.eqb_eq in Hd as ->.
      pose proof (take_while_isdecimal rest) as Hfrac.
      rewrite remove_char_id.
      * destruct (float_of_str_decimals head _ Hhead Hfrac Hne) as [_ [n Hn]].
        by exists n, (length (take_while Py.isdecimal rest)).
      * rewrite not_elem_of_app, not_elem_of_cons.
        split; [by apply decimals_no_comma|]. split; [done|by apply decimals_no_comma].
    + rewrite remove_char_id by by apply decimals_no_comma.
      destruct (float_of_str_decimals head [] Hhead) as [[n Hn] _]; [constructor|done|].
      by exists n, 0%nat.
Qed.

Lemma re_search_Some s :
  comma ∉ s → (∃ c, c ∈ s ∧ Py.isdecimal c = true) →
  ∃ c s', re_search s = Some (match_here (c :: s'))
          ∧ digit_or_comma c = true ∧ comma ∉ c :: s'.
Proof.
  induction s as [|x s IH]; intros Hno (c & Hin & Hc); [by inversion Hin|].
  simpl. destruct (digit_or_comma x) eqn:Hx.
  - by exists x, s.
  - apply not_elem_of_cons in Hno as [_ Hno].
    apply elem_of_cons in Hin as [->|Hin].
    + unfold digit_or_comma in Hx. by rewrite Hc in Hx.
    + apply IH; [done|]. by exists c.
Qed.

(** A text with a decimal digit has a price, and the price is unsigned. *)
Lemma _parse_price_digit text :
  (∃ c, c ∈ text ∧ Py.isdecimal c = true) →
  ∃ price, _parse_price (Some text)
           = Py.Ok (Some price, detect_currency (Py.strip text))
           ∧ unsigned_float price.
Proof.
  intros (c & Hin & Hc). unfold _parse_price.
  destruct (re_search_Some (Py.remove_char comma (Py.strip text)))
    as (x & s' & -> & Hx & Hno).
  - apply remove_char_absent.
  - exists c. split; [|done].
    apply remove_char_keeps; [|by apply isdecimal_not_comma].
    apply strip_keeps; [done|by apply isdecimal_not_space].
  - destruct (float_of_match x s' Hx Hno) as (n & k & ->).
    eexists. split; [done|]. apply of_decimal_unsigned.
Qed.

(** Whatever the text, a price the parser returns is unsigned. *)
Lemma _parse_price_unsigned t price currency :
  _parse_price t = Py.Ok (Some price, currency) → unsigned_float price.
Proof.
  unfold _parse_price. destruct t as [text|]; [|done].
  destruct (re_search _) as [group|]; [|done].
  destruct (Py.float_of_str _) as [x|[]] eqn:E; try done.
  intros [= <- _]. by eapply float_of_str_unsigned.
Qed.

End ParserFacts.

(* ===================================================================== *)
(** ** The history: a bounded first-in first-out log                       *)
(* ===================================================================== *)

Section HistoryFacts.

Implicit Types (h : gmap (list N) (list PriceRecord.t))
               (key : list N) (r : PriceRecord.t) (l rs : list PriceRecord.t).

Lemma slice_last_length {A} n (l : list A) : length (slice_last n l) ≤ n.
Proof. unfold slice_last. rewrite length_drop. lia. Qed.

Lemma slice_last_short {A} n (l : list A) :
  length l ≤ n → slice_last n l = l.
Proof.
  intros H. unfold slice_last.
  by replace (length l - n) with 0 by lia.
Qed.

Lemma slice_last_app {A} n (l l' : list A) :
  slice_last n (slice_last n l ++ l') = slice_last n (l ++ l').
Proof.
  unfold slice_last.
  destruct (decide (length l ≤ n)) as [Hle|Hgt].
  - by replace (length l - n) with 0 by lia.
  - rewrite !length_app, length_drop.
    replace (length l - (length l - n) + length l' - n) with (length l') by lia.
    replace (length l + length l' - n)
      with ((length l - n) + length l') by lia.
    rewrite <- drop_drop. f_equal.
    rewrite drop_app_le by lia. done.
Qed.

Lemma save_to_history_lookup h key r :
  save_to_history h key r !! key
  = Some (slice_last 100 (records_of h key ++ [r])).
Proof.
  unfold save_to_history, records_of.
  destruct (h !! key) as [l|] eqn:E; simpl.
  - by rewrite !lookup_alter_eq, E.
  - by rewrite !lookup_alter_eq, lookup_insert_eq.
Qed.

Lemma save_to_history_lookup_ne h key key' r :
  key ≠ key' → save_to_history h key r !! key' = h !! key'.
Proof.
  intros Hne. unfold save_to_history.
  rewrite !lookup_alter_ne by done.
  destruct (h !! key); [done|]. by rewrite lookup_insert_ne.
Qed.

Lemma records_of_save h key r :
  records_of (save_to_history h key r) key
  = slice_last 100 (records_of h key ++ [r]).
Proof. unfold records_of at 1. by rewrite save_to_history_lookup. Qed.

Lemma records_of_appends h key r rs :
  records_of (appends h key (r :: rs)) key
  = slice_last 100 (records_of h key ++ r :: rs).
Proof.
  revert h r. induction rs as [|r' rs IH]; intros h r.
  - apply records_of_save.
  - change (appends h key (r :: r' :: rs))
      with (appends (save_to_history h key r) key (r' :: rs)).
    rewrite IH, records_of_save, slice_last_app.
    by rewrite <- app_assoc.
Qed.

Lemma appends_lookup_ne h key key' rs :
  key ≠ key' → appends h key rs !! key' = h !! key'.
Proof.
  intros Hne. revert h. induction rs as [|r rs IH]; intros h; [done|].
  change (appends h key (r :: rs))
    with (appends (save_to_history h key r) key rs).
  rewrite IH. by apply save_to_history_lookup_ne.
Qed.

End HistoryFacts.

(* ===================================================================== *)
(** ** The alert rules and the cycle                                       *)
(* ===================================================================== *)

Section MonitorFacts.

Variable md5_hexdigest : Py.str -> Py.str.

Abbreviation key_of product :=
  (_get_product_key md5_hexdigest (Product.url product)).
Abbreviation check := (_check_alert_conditions md5_hexdigest).
Abbreviation loop := (check_all_loop md5_hexdigest).

Implicit Types (h : gmap (list N) (list PriceRecord.t))
               (product : Product.t) (current r prior : PriceRecord.t)
               (obs : observation) (alerts : list PriceAlert.t).

Lemma check_no_prior h product current :
  records_of h (key_of product) = [] → check h product current = Py.Ok None.
Proof.
  intros H. unfold _check_alert_conditions.
  unfold records_of in H. by rewrite H.
Qed.

Lemma check_single_prior product prior current :
  check {[ key_of product := [prior] ]} product current
  = (last_price ← Py.num (PriceRecord.price prior);
     change_percent ← percent_change last_price (PriceRecord.price current);
     kind ← choose_alert_type product last_price (PriceRecord.price current)
              change_percent;
     match kind with
     | Some k =>
         mret (Some (PriceAlert.mk (Product.name product) (Product.url product)
                       (Some last_price) (PriceRecord.price current)
                       change_percent k (PriceRecord.timestamp current)))
     | None => mret None
     end).
Proof. unfold _check_alert_conditions. by rewrite lookup_singleton_eq. Qed.

Lemma save_to_history_fresh h key r :
  records_of h key = [] → save_to_history h key r = <[key := [r]]> h.
Proof.
  intros H. apply map_eq. intros k.
  destruct (decide (key = k)) as [<-|Hne].
  - by rewrite save_to_history_lookup, H, lookup_insert_eq.
  - by rewrite save_to_history_lookup_ne, lookup_insert_ne.
Qed.

(** *** The percent change *)

Lemma percent_change_nonpositive last_price current_price :
  Py.gtb last_price Py.zero = false →
  percent_change last_price current_price = Py.Ok Py.zero.
Proof. intros H. unfold percent_change. by rewrite H. Qed.

Lemma percent_change_no_zero_division last_price current_price :
  percent_change last_price current_price ≠ Py.Raise Py.ZeroDivisionError.
Proof.
  unfold percent_change.
  destruct (Py.gtb last_price Py.zero) eqn:Hpos; [|done].
  destruct current_price as [cur|]; [|done]. simpl.
  unfold Py.truediv. by rewrite (gtb_zero_not_eqb _ Hpos).
Qed.

Lemma choose_alert_type_no_zero_division product lp cur cp :
  choose_alert_type product lp cur cp ≠ Py.Raise Py.ZeroDivisionError.
Proof.
  unfold choose_alert_type.
  destruct (Product.target_price product) as [t|]; [|done].
  destruct (Py.truthy t); [|done].
  destruct cur as [x|]; [|done]. simpl. by destruct (Py.leb x t).
Qed.

(** Once the current price is at or below a target the prior price had
    already reached, the chain ends in the target branch: no alert, whatever
    the percent change and the other rule fields are. *)
Lemma choose_alert_type_below_crossed_target product lp cur target cp :
  Product.target_price product = Some target →
  Py.truthy target = true →
  Py.leb cur target = true →
  Py.gtb lp target = false →
  choose_alert_type product lp (Some cur) cp = Py.Ok None.
Proof.
  intros Ht Htruthy Hle Hgt. unfold choose_alert_type.
  rewrite Ht, Htruthy. simpl. by rewrite Hle, Hgt.
Qed.

(** What an alert carries: the prior price, the current price and the
    percent change worked out from the two, whatever its kind. *)
Lemma check_alert_payload h product current a :
  check h product current = Py.Ok (Some a) →
  ∃ prior lp,
    last (records_of h (key_of product)) = Some prior
    ∧ PriceRecord.price prior = Some lp
    ∧ percent_change lp (PriceRecord.price current)
      = Py.Ok (PriceAlert.change_percent a)
    ∧ PriceAlert.old_price a = Some lp
    ∧ PriceAlert.new_price a = PriceRecord.price current.
Proof.
  unfold _check_alert_conditions, records_of.
  destruct (last _) as [prior|]; [|done].
  destruct (PriceRecord.price prior) as [lp|] eqn:Hp; [|done]. simpl.
  destruct (percent_change lp _) as [cp|] eqn:E; [|done]. simpl.
  destruct (choose_alert_type _ _ _ _) as [[k|]|]; simpl; try done.
  intros [= <-]. by exists prior, lp.
Qed.

(** *** Skipped products *)



(** *** Exceptions the scrape lets out *)


Lemma scrape_price_raises product obs e :
  scrape_price product obs = Py.Raise e → escapes obs e.
Proof.
  unfold scrape_price, escapes.
  destruct (page obs) as [e'| | |t|e']; try done.
  - intros [= ->]. by left.
  - destruct (_parse_price t) as [[[price|] currency]|e'']; try done.
    by destruct (Py.truthy price).
  - intros [= ->]. by right.
Qed.

Lemma scrape_price_browser_ok product obs :
  browser_ok obs → ∃ record, scrape_price product obs = Py.Ok record.
Proof.
  intros Hok. destruct (scrape_price product obs) as [record|e] eqn:Hs.
  - by exists record.
  - by destruct (Hok e (scrape_price_raises _ _ _ Hs)).
Qed.

Lemma scrape_price_timestamp product obs r :
  scrape_price product obs = Py.Ok (Some r) →
  PriceRecord.url r = Product.url product
  ∧ PriceRecord.name r = Product.name product
  ∧ PriceRecord.timestamp r = now_isoformat obs.
Proof.
  unfold scrape_price.
  destruct (page obs) as [e'| | |t|e']; try done.
  destruct (_parse_price t) as [[[price|] currency]|e'']; try done.
  destruct (Py.truthy price); [|done]. by intros [= <-].
Qed.


(** *** Prices of stored records *)

Lemma scrape_price_positive product obs r :
  scrape_price product obs = Py.Ok (Some r) → positive_price r.
Proof.
  unfold scrape_price.
  destruct (page obs) as [e'| | |t|e']; try done.
  destruct (_parse_price t) as [[[price|] currency]|e] eqn:E; try done.
  destruct (Py.truthy price) eqn:Ht; [|done].
  intros [= <-]. exists price. split; [done|].
  apply unsigned_truthy_positive; [|done].
  by eapply _parse_price_unsigned.
Qed.

Lemma scrape_price_zero product t now x currency :
  _parse_price t = Py.Ok (Some x, currency) → Py.eqb x Py.zero = true →
  scrape_price product (mk_observation (text_content t) now) = Py.Ok None.
Proof.
  intros E Hz. unfold scrape_price, Py.truthy. simpl. by rewrite E, Hz.
Qed.

Lemma save_to_history_positive h key r :
  positive_history h → positive_price r →
  positive_history (save_to_history h key r).
Proof.
  intros Hh Hr k l Hl.
  destruct (decide (key = k)) as [<-|Hne].
  - rewrite save_to_history_lookup in Hl. injection Hl as <-.
    apply Forall_drop, Forall_app. split; [|by constructor].
    unfold records_of. destruct (h !! key) as [l0|] eqn:E; simpl; [|constructor].
    by eapply Hh.
  - rewrite save_to_history_lookup_ne in Hl by done. by eapply Hh.
Qed.

Lemma loop_positive todo alerts h :
  positive_history h → positive_history (loop todo alerts h).2.
Proof.
  revert alerts h.
  induction todo as [|[p o] todo IH]; intros alerts h Hh; simpl; [done|].
  destruct (scrape_price p o) as [[record|]|e] eqn:Hs; [|by apply IH|done].
  destruct (check h p record) as [alert|e]; [|done].
  apply IH, save_to_history_positive; [done|].
  by eapply scrape_price_positive.
Qed.

End MonitorFacts.

(* ===================================================================== *)
(** ** Properties of the specification, checked on the code               *)
(* ===================================================================== *)

Section Claims.

Variable md5_hexdigest : Py.str -> Py.str.

Abbreviation key_of product :=
  (_get_product_key md5_hexdigest (Product.url product)).
Abbreviation check := (_check_alert_conditions md5_hexdigest).
Abbreviation loop := (check_all_loop md5_hexdigest).

(** C1 (the code departs from it).  Threshold 5.0, prior price 50.00,
    current price 45.00: the change is -10.0 and is at or below minus the
    threshold, and without a target the alert is a drop.  With a target of
    60.00 that the prior price had already crossed, the target branch of
    the chain is entered, its inner test fails, and neither the drop nor
    the any-change branch is looked at: no alert is returned. *)
Theorem C1_drop_masked_below_target :
  let prior := sample_record (Some (dec 5000 2)) "t0" in
  let current := sample_record (Some (dec 4500 2)) "t1" in
  let no_target := sample_product None false (dec 50 1) in
  let crossed := sample_product (Some (dec 6000 2)) false (dec 50 1) in
  percent_change (dec 5000 2) (Some (dec 4500 2)) = Py.Ok (Py.of_prim (-10))
  ∧ Py.leb (Py.of_prim (-10)) (Py.neg (dec 50 1)) = true
  ∧ check {[ key_of no_target := [prior] ]} no_target current
    = Py.Ok (Some (sample_alert (dec 5000 2) (dec 4500 2) (Py.of_prim (-10))
                     kind_drop "t1"))
  ∧ check {[ key_of crossed := [prior] ]} crossed current = Py.Ok None.
Proof.
  cbv zeta. split; [by vm_compute|]. split; [by vm_compute|].
  split; (etrans; [apply check_single_prior|by vm_compute]).
Qed.

(** C3.  A product without a prior record, its history absent or empty,
    gets no alert whatever the current record is; its first successful
    observation leaves the collected alerts as they were and makes the
    record the product's whole history. *)
Theorem C3_first_observation_only_seeds h product :
  records_of h (key_of product) = [] →
  (∀ current, check h product current = Py.Ok None)
  ∧ (∀ obs alerts r,
       scrape_price product obs = Py.Ok (Some r) →
       loop [(product, obs)] alerts h
       = (Py.Ok alerts, <[key_of product := [r]]> h)).
Proof.
  intros Hnone. split.
  - intros current. by apply check_no_prior.
  - intros obs alerts r Hr. simpl. rewrite Hr.
    rewrite check_no_prior by done.
    by rewrite save_to_history_fresh.
Qed.

(** C6.  Target 25.00, prior price 29.99, current price 24.99: the alert
    is of kind target_reached and carries the percent change
    -16.672224074691563, which lies between -16.68 and -16.66.  In general
    the alert returned, of whatever kind, carries the percent change
    computed from the prior and the current price. *)
Theorem C6_target_reached_carries_percent :
  let product := sample_product (Some (dec 2500 2)) false (dec 50 1) in
  let prior := sample_record (Some (dec 2999 2)) "t0" in
  let current := sample_record (Some (dec 2499 2)) "t1" in
  let percent := Py.of_prim (-16.672224074691563) in
  check {[ key_of product := [prior] ]} product current
  = Py.Ok (Some (sample_alert (dec 2999 2) (dec 2499 2) percent
                   kind_target_reached "t1"))
  ∧ Py.ltb (Py.neg (dec 1668 2)) percent = true
  ∧ Py.ltb percent (Py.neg (dec 1666 2)) = true
  ∧ ∀ h p c a,
      check h p c = Py.Ok (Some a) →
      ∃ prior lp,
        last (records_of h (key_of p)) = Some prior
        ∧ PriceRecord.price prior = Some lp
        ∧ percent_change lp (PriceRecord.price c)
          = Py.Ok (PriceAlert.change_percent a).
Proof.
  cbv zeta. split; [etrans; [apply check_single_prior|by vm_compute]|].
  split; [by vm_compute|]. split; [by vm_compute|].
  intros h p c a Ha.
  destruct (check_alert_payload _ _ _ _ _ Ha) as (prior & lp & ? & ? & ? & _).
  by exists prior, lp.
Qed.

(** C7.  When the prior price is not strictly positive the percent change
    is 0 and no division takes place; the division is only reached with a
    strictly positive divisor, so neither the percent change nor the whole
    evaluation ever raises ZeroDivisionError; an alert raised against such
    a prior record reports a change of 0. *)
Theorem C7_nonpositive_prior_gives_zero_change :
  (∀ last_price current_price,
     Py.gtb last_price Py.zero = false →
     percent_change last_price current_price = Py.Ok Py.zero)
  ∧ (∀ last_price current_price,
       percent_change last_price current_price
       ≠ Py.Raise Py.ZeroDivisionError)
  ∧ (∀ h product current,
       check h product current ≠ Py.Raise Py.ZeroDivisionError)
  ∧ (∀ h product current prior last_price a,
       last (records_of h (key_of product)) = Some prior →
       PriceRecord.price prior = Some last_price →
       Py.gtb last_price Py.zero = false →
       check h product current = Py.Ok (Some a) →
       PriceAlert.change_percent a = Py.zero).
Proof.
  split; [apply percent_change_nonpositive|].
  split; [apply percent_change_no_zero_division|]. split.
  - intros h product current. unfold _check_alert_conditions.
    destruct (last _) as [prior|]; [|done].
    destruct (PriceRecord.price prior) as [lp|]; [|done]. simpl.
    pose proof (percent_change_no_zero_division lp (PriceRecord.price current)).
    destruct (percent_change lp _) as [cp|[]]; try done. simpl.
    pose proof (choose_alert_type_no_zero_division product lp
                  (PriceRecord.price current) cp).
    destruct (choose_alert_type _ _ _ _) as [[k|]|[]]; done.
  - intros h product current prior lp a Hlast Hprice Hnonpos Ha.
    destruct (check_alert_payload _ _ _ _ _ Ha)
      as (prior' & lp' & Hlast' & Hprice' & Hpc & _).
    assert (prior' = prior) as -> by congruence.
    assert (lp' = lp) as -> by congruence.
    rewrite percent_change_nonpositive in Hpc by done. congruence.
Qed.


(** C10.  A record made by a scrape has a strictly positive price; a text
    whose number parses to zero gives no record, as a text without a
    number does; so a history whose stored prices are all strictly
    positive stays so through [check_all], however the cycle ends. *)
Theorem C10_stored_prices_strictly_positive :
  (∀ product obs r,
     scrape_price product obs = Py.Ok (Some r) → positive_price r)
  ∧ (∀ product t now x currency,
       _parse_price t = Py.Ok (Some x, currency) →
       Py.eqb x Py.zero = true →
       scrape_price product (mk_observation (text_content t) now)
       = Py.Ok None
       ∧ ∀ alerts h,
           loop [(product, mk_observation (text_content t) now)] alerts h
           = (Py.Ok alerts, h))
  ∧ (∀ self world save_error,
       positive_history (history self) →
       positive_history
         (history (check_all md5_hexdigest self world save_error).2)).
Proof.
  split; [apply scrape_price_positive|]. split.
  - intros product t now x currency E Hz.
    pose proof (scrape_price_zero product t now x currency E Hz) as Hs.
    split; [done|]. intros alerts h. simpl. by rewrite Hs.
  - intros self world save_error Hh. unfold check_all.
    pose proof (loop_positive md5_hexdigest (zip (products self) world) []
                  (history self) Hh) as H.
    by destruct (loop _ _ _) as [res h'].
Qed.

End Claims.

(** C2.  After any run of at least one append to a product's history, from
    any state of the store, that history has at most 100 records and is
    the last 100 of the old records followed by the appended ones, in that
    order.  For a product without records, the history after the run is
    the appended sequence less its oldest members; after 101 appends it is
    the 100 records appended last, and the first one is gone. *)
Theorem C2_history_is_bounded_fifo
    (h : gmap (list N) (list PriceRecord.t)) key r rs :
  let after := records_of (appends h key (r :: rs)) key in
  length after ≤ 100
  ∧ after = slice_last 100 (records_of h key ++ r :: rs)
  ∧ (records_of h key = [] →
     after = drop (length (r :: rs) - 100) (r :: rs)
     ∧ (length rs = 100 → after = rs ∧ (r ∉ rs → r ∉ after))).
Proof.
  cbv zeta. rewrite records_of_appends.
  split; [apply slice_last_length|]. split; [done|].
  intros ->. rewrite app_nil_l. split; [done|].
  intros Hlen. unfold slice_last.
  replace (length (r :: rs) - 100) with 1 by (simpl; lia).
  done.
Qed.

(** C4 (the code departs from it).  The text "€99,00" contains the euro
    sign, yet the parser answers USD: the literal the source searches for
    is the three-character mis-encoding of the sign, and only a text that
    contains that sequence resolves to EUR. *)
Theorem C4_euro_sign_resolves_to_usd :
  _parse_price (Some (8364%N :: Py.lit "99,00"))
  = Py.Ok (Some (dec 9900 0), Py.lit "USD")
  ∧ _parse_price (Some (lit_eur ++ Py.lit "99,00"))
    = Py.Ok (Some (dec 9900 0), Py.lit "EUR").
Proof. split; by vm_compute. Qed.


(* ===================================================================== *)
(** ** The properties at concrete inputs                                   *)
(* ===================================================================== *)

Lemma C2_history_is_bounded_fifo_witness :
  records_of ∅ sample_url = []
  ∧ length (numbered_records 1 100) = 100
  ∧ records_of (appends ∅ sample_url
                  (numbered_records 0 1 ++ numbered_records 1 100)) sample_url
    = numbered_records 1 100.
Proof.
  split; [reflexivity|]. split; [reflexivity|].
  destruct (C2_history_is_bounded_fifo ∅ sample_url
              (PriceRecord.mk sample_url sample_name (Some (dec 100 2))
                 (Py.lit "USD") [0%N])
              (numbered_records 1 100)) as (_ & _ & H).
  destruct H as [_ H]; [reflexivity|].
  destruct H as [H _]; [reflexivity|].
  exact H.
Defined.

Lemma C3_first_observation_only_seeds_witness :
  records_of ∅ (_get_product_key sample_digest
                  (Product.url (sample_product None true (dec 50 1)))) = []
  ∧ _check_alert_conditions sample_digest ∅
      (sample_product None true (dec 50 1))
      (sample_record (Some (dec 4500 2)) "t1") = Py.Ok None.
Proof.
  split; [reflexivity|].
  destruct (C3_first_observation_only_seeds sample_digest ∅
              (sample_product None true (dec 50 1))) as [H _]; [reflexivity|].
  apply H.
Defined.

Lemma C6_target_reached_carries_percent_witness :
  let product := sample_product (Some (dec 2500 2)) false (dec 50 1) in
  let h : gmap (list N) (list PriceRecord.t) :=
    {[ _get_product_key sample_digest sample_url
       := [sample_record (Some (dec 2999 2)) "t0"] ]} in
  let current := sample_record (Some (dec 2499 2)) "t1" in
  let a := sample_alert (dec 2999 2) (dec 2499 2)
             (Py.of_prim (-16.672224074691563)) kind_target_reached "t1" in
  _check_alert_conditions sample_digest h product current = Py.Ok (Some a)
  ∧ ∃ prior lp,
      last (records_of h (_get_product_key sample_digest sample_url))
      = Some prior
      ∧ PriceRecord.price prior = Some lp
      ∧ percent_change lp (PriceRecord.price current)
        = Py.Ok (PriceAlert.change_percent a).
Proof.
  cbv zeta.
  assert (H : _check_alert_conditions sample_digest
                {[ _get_product_key sample_digest sample_url
       := [sample_record (Some (dec 2999 2)) "t0"] ]}
                (sample_product (Some (dec 2500 2)) false (dec 50 1))
                (sample_record (Some (dec 2499 2)) "t1")
              = Py.Ok (Some (sample_alert (dec 2999 2) (dec 2499 2)
                               (Py.of_prim (-16.672224074691563))
                               kind_target_reached "t1")))
    by (vm_compute; reflexivity).
  split; [exact H|].
  destruct (C6_target_reached_carries_percent sample_digest) as (_ & _ & _ & P).
  exact (P _ _ _ _ H).
Defined.

Lemma C7_nonpositive_prior_gives_zero_change_witness :
  let product := sample_product None false (dec 0 0) in
  let prior := sample_record (Some (Py.neg (dec 100 2))) "t0" in
  let current := sample_record (Some (dec 4500 2)) "t1" in
  let h : gmap (list N) (list PriceRecord.t) :=
    {[ _get_product_key sample_digest sample_url := [prior] ]} in
  let a := sample_alert (Py.neg (dec 100 2)) (dec 4500 2) Py.zero kind_drop "t1" in
  Py.gtb (Py.neg (dec 100 2)) Py.zero = false
  ∧ percent_change (Py.neg (dec 100 2)) (Some (dec 4500 2)) = Py.Ok Py.zero
  ∧ _check_alert_conditions sample_digest h product current = Py.Ok (Some a)
  ∧ PriceAlert.change_percent a = Py.zero.
Proof.
  cbv zeta. split; [reflexivity|]. split.
  - apply (proj1 (C7_nonpositive_prior_gives_zero_change sample_digest)).
    reflexivity.
  - split; [vm_compute; reflexivity|].
    apply (proj2 (proj2 (proj2
             (C7_nonpositive_prior_gives_zero_change sample_digest)))
             {[ _get_product_key sample_digest sample_url
                := [sample_record (Some (Py.neg (dec 100 2))) "t0"] ]}
             (sample_product None false (dec 0 0))
             (sample_record (Some (dec 4500 2)) "t1")
             (sample_record (Some (Py.neg (dec 100 2))) "t0")
             (Py.neg (dec 100 2)));
      vm_compute; reflexivity.
Defined.


Lemma C10_stored_prices_strictly_positive_witness :
  let product := sample_product None false (dec 50 1) in
  let r := PriceRecord.mk sample_url sample_name (Some (dec 1000 2))
             (Py.lit "USD") (Py.lit "t1") in
  _parse_price (Some (Py.lit "$0.00")) = Py.Ok (Some Py.zero, Py.lit "USD")
  ∧ Py.eqb Py.zero Py.zero = true
  ∧ scrape_price product (sample_text "$0.00" "t1") = Py.Ok None
  ∧ scrape_price product (sample_text "$10.00" "t1") = Py.Ok (Some r)
  ∧ positive_price r.
Proof.
  cbv zeta. split; [reflexivity|]. split; [reflexivity|]. split.
  - apply (proj1 (proj2 (C10_stored_prices_strictly_positive sample_digest))
             _ (Some (Py.lit "$0.00")) _ Py.zero (Py.lit "USD"));
      reflexivity.
  - split; [vm_compute; reflexivity|].
    apply (proj1 (C10_stored_prices_strictly_positive sample_digest)
             (sample_product None false (dec 50 1))
             (sample_text "$10.00" "t1")).
    vm_compute; reflexivity.
Defined.

(* ===================================================================== *)
(** ** Further properties of the parser                                    *)
(* ===================================================================== *)

Section ParserMore.

Implicit Types (s text ws : Py.str) (c : Py.codepoint).

Lemma lstrip_spaces ws s : spaces ws → Py.lstrip (ws ++ s) = Py.lstrip s.
Proof. induction 1 as [|c ws Hc _ IH]; simpl; [done|]. by rewrite Hc. Qed.

Lemma lstrip_all_spaces ws : spaces ws → Py.lstrip ws = [].
Proof.
  intros H. rewrite <- (app_nil_r ws). by rewrite lstrip_spaces.
Qed.

Lemma rstrip_spaces s ws : spaces ws → Py.rstrip (s ++ ws) = Py.rstrip s.
Proof.
  intros H. unfold Py.rstrip. rewrite reverse_app, lstrip_spaces; [done|].
  unfold spaces. by apply Forall_reverse.
Qed.

Lemma lstrip_app_spaces s ws :
  spaces ws →
  (Py.lstrip (s ++ ws) = [] ∧ Py.lstrip s = [])
  ∨ Py.lstrip (s ++ ws) = Py.lstrip s ++ ws.
Proof.
  intros H. induction s as [|c s IH]; simpl.
  - left. by rewrite lstrip_all_spaces.
  - destruct (Py.isspace c); [exact IH|by right].
Qed.

Lemma strip_spaces ws1 text ws2 :
  spaces ws1 → spaces ws2 → Py.strip (ws1 ++ text ++ ws2) = Py.strip text.
Proof.
  intros H1 H2. unfold Py.strip. rewrite lstrip_spaces by done.
  destruct (lstrip_app_spaces text ws2 H2) as [[-> ->]| ->]; [done|].
  by apply rstrip_spaces.
Qed.

Lemma detect_currency_codes text :
  detect_currency text ∈ [Py.lit "EUR"; Py.lit "GBP"; Py.lit "JPY"; Py.lit "USD"].
Proof.
  unfold detect_currency.
  destruct (Py.contains lit_eur text); [set_solver|].
  destruct (Py.contains lit_gbp text); [set_solver|].
  destruct (Py.contains lit_jpy text); set_solver.
Qed.

(** X1.  Blanks around the text do not matter: whatever whitespace (in the
    sense of [str.isspace]) is put before and after a text, the parser
    returns the same price and the same currency. *)
Theorem X1_parse_price_ignores_surrounding_blanks ws1 text ws2 :
  spaces ws1 → spaces ws2 →
  _parse_price (Some (ws1 ++ text ++ ws2)) = _parse_price (Some text).
Proof.
  intros H1 H2. unfold _parse_price. by rewrite strip_spaces.
Qed.

(** X2.  On a text the parser never raises; a price it returns is a
    positive zero, a positive finite number or plus infinity, never a
    negative number and never a NaN (a minus sign in the text is not part
    of the number); the currency is one of EUR, GBP, JPY and USD. *)
Theorem X2_parse_price_result_shape text :
  ∃ price currency,
    _parse_price (Some text) = Py.Ok (price, currency)
    ∧ currency ∈ [Py.lit "EUR"; Py.lit "GBP"; Py.lit "JPY"; Py.lit "USD"]
    ∧ (∀ x, price = Some x → unsigned_float x).
Proof.
  destruct (_parse_price (Some text)) as [[price currency]|e] eqn:E.
  - exists price, currency. split; [done|]. split.
    + unfold _parse_price in E.
      destruct (re_search _) as [group|]; [|injection E as _ <-; apply detect_currency_codes].
      destruct (Py.float_of_str _) as [x|[]]; try done;
        injection E as _ <-; apply detect_currency_codes.
    + intros x ->. by eapply _parse_price_unsigned.
  - exfalso. unfold _parse_price in E.
    destruct (re_search _) as [group|]; [|done].
    unfold Py.float_of_str in E.
    destruct (Py.digits_value _ _); [|done].
    by destruct (_ =? _)%nat.
Qed.

(** *** Thousands separators *)

Lemma space_not_class c : Py.isspace c = true → digit_or_comma c = false.
Proof.
  intros Hc. unfold digit_or_comma.
  destruct (Py.isdecimal c) eqn:Hd.
  - by rewrite (isdecimal_not_space c Hd) in Hc.
  - simpl. apply N.eqb_neq. by intros ->.
Qed.

Lemma space_not_decimal c : Py.isspace c = true → Py.isdecimal c = false.
Proof.
  intros Hc. destruct (Py.isdecimal c) eqn:Hd; [|done].
  by rewrite (isdecimal_not_space c Hd) in Hc.
Qed.

Lemma spaces_no_comma ws : spaces ws → comma ∉ ws.
Proof. intros H Hin. eapply Forall_forall in H; [|exact Hin]. done. Qed.

Lemma lstrip_decompose s : ∃ ws, spaces ws ∧ s = ws ++ Py.lstrip s.
Proof.
  induction s as [|c s (ws & Hws & IH)]; simpl.
  { exists []. split; [constructor|done]. }
  destruct (Py.isspace c) eqn:Hc.
  - exists (c :: ws). split; [by constructor|]. simpl. by rewrite <- IH.
  - exists []. split; [constructor|done].
Qed.

Lemma rstrip_decompose s : ∃ ws, spaces ws ∧ s = Py.rstrip s ++ ws.
Proof.
  destruct (lstrip_decompose (reverse s)) as (ws & Hws & H).
  exists (reverse ws). split; [by apply Forall_reverse|].
  unfold Py.rstrip. rewrite <- reverse_app, <- H. by rewrite reverse_involutive.
Qed.

Lemma strip_decompose s :
  ∃ ws1 ws2, spaces ws1 ∧ spaces ws2 ∧ s = ws1 ++ Py.strip s ++ ws2.
Proof.
  destruct (lstrip_decompose s) as (ws1 & H1 & E1).
  destruct (rstrip_decompose (Py.lstrip s)) as (ws2 & H2 & E2).
  exists ws1, ws2. split; [done|]. split; [done|].
  unfold Py.strip. by rewrite <- E2.
Qed.

Lemma remove_char_app x s t :
  Py.remove_char x (s ++ t) = Py.remove_char x s ++ Py.remove_char x t.
Proof. unfold Py.remove_char. apply List.filter_app. Qed.

Lemma take_while_app_stop (f : Py.codepoint → bool) s ws :
  Forall (λ c, f c = false) ws → take_while f (s ++ ws) = take_while f s.
Proof.
  intros H. induction s as [|c s IH]; simpl.
  - destruct H as [|c ws Hc _]; simpl; [done|by rewrite Hc].
  - by rewrite IH.
Qed.

Lemma drop_while_app_stop (f : Py.codepoint → bool) s ws :
  Forall (λ c, f c = false) ws →
  drop_while f (s ++ ws) = drop_while f s ++ ws.
Proof.
  intros H. induction s as [|c s IH]; simpl.
  - destruct H as [|c ws Hc _]; simpl; [done|by rewrite Hc].
  - by destruct (f c).
Qed.

Lemma match_here_spaces s ws : spaces ws → match_here (s ++ ws) = match_here s.
Proof.
  intros H. unfold match_here.
  assert (H1 : Forall (λ c, digit_or_comma c = false) ws)
    by (eapply Forall_impl; [exact H|apply space_not_class]).
  assert (H2 : Forall (λ c, Py.isdecimal c = false) ws)
    by (eapply Forall_impl; [exact H|apply space_not_decimal]).
  rewrite take_while_app_stop, drop_while_app_stop by done.
  destruct (drop_while digit_or_comma s) as [|c rest]; simpl.
  - destruct H as [|c ws Hc _]; [done|].
    assert ((c =? Py.dot)%N = false) as -> by (apply N.eqb_neq; by intros ->).
    done.
  - destruct (c =? Py.dot)%N; [|done]. by rewrite take_while_app_stop.
Qed.

Lemma re_search_spaces ws1 s ws2 :
  spaces ws1 → spaces ws2 → re_search (ws1 ++ s ++ ws2) = re_search s.
Proof.
  intros H1 H2. induction H1 as [|c ws1 Hc _ IH]; simpl.
  - induction s as [|c s IH]; simpl.
    + apply re_search_None. intros c Hc. apply space_not_class.
      by eapply Forall_forall in H2.
    + destruct (digit_or_comma c); [|done].
      f_equal. by apply (match_here_spaces (c :: s)).
  - by rewrite (space_not_class c Hc).
Qed.

(** X14.  Commas never change the price: the price parsed from a text is
    the price parsed from the same text with every comma taken out,
    wherever the commas stand (the currencies may differ, as a comma can
    split a currency literal). *)
Theorem X14_commas_do_not_change_the_price text :
  ∃ price currency currency',
    _parse_price (Some text) = Py.Ok (price, currency)
    ∧ _parse_price (Some (Py.remove_char comma text))
      = Py.Ok (price, currency').
Proof.
  assert (E : re_search (Py.remove_char comma
                 (Py.strip (Py.remove_char comma text)))
              = re_search (Py.remove_char comma (Py.strip text))).
  { destruct (strip_decompose text) as (ws1 & ws2 & H1 & H2 & Et).
    rewrite Et at 1. rewrite !remove_char_app.
    rewrite (remove_char_id comma ws1), (remove_char_id comma ws2)
      by by apply spaces_no_comma.
    rewrite strip_spaces by done.
    rewrite remove_char_id.
    - destruct (strip_decompose (Py.remove_char comma (Py.strip text)))
        as (u1 & u2 & Hu1 & Hu2 & Eu).
      rewrite Eu at 2. by rewrite re_search_spaces.
    - intros Hin. apply strip_subseteq in Hin.
      by apply remove_char_absent in Hin. }
  unfold _parse_price. cbv zeta. rewrite E.
  destruct (re_search (Py.remove_char comma (Py.strip text))) as [group|];
    [|eexists _, _, _; split; reflexivity].
  destruct (Py.float_of_str _) as [x|[]] eqn:Ef;
    try (eexists _, _, _; split; reflexivity).
  all: unfold Py.float_of_str in Ef;
    destruct (Py.digits_value _ _); [|done];
    by destruct (_ =? _)%nat.
Qed.

End ParserMore.

(* ===================================================================== *)
(** ** Further properties of the alert rules                               *)
(* ===================================================================== *)

Section RulesMore.

Variable md5_hexdigest : Py.str -> Py.str.

Abbreviation key_of product :=
  (_get_product_key md5_hexdigest (Product.url product)).
Abbreviation check := (_check_alert_conditions md5_hexdigest).

Implicit Types (h : gmap (list N) (list PriceRecord.t))
               (product : Product.t) (current prior : PriceRecord.t)
               (x y : spec_float).

Lemma SFcompare_antisym x y :
  SFcompare y x = CompOpp <$> SFcompare x y.
Proof.
  destruct x as [[]|[]| |[] m1 e1], y as [[]|[]| |[] m2 e2]; simpl; try done.
  all: rewrite (Z.compare_antisym e1 e2).
  all: assert (Hm : Pos.compare_cont Eq m2 m1
                    = CompOpp (Pos.compare_cont Eq m1 m2))
         by (symmetry; apply (Pos.compare_cont_antisym m1 m2 Eq)).
  all: destruct (e1 ?= e2)%Z; simpl; try done.
  all: rewrite Hm; by destruct (Pos.compare_cont Eq m1 m2).
Qed.

Lemma leb_not_gtb x y : Py.leb x y = true → Py.gtb x y = false.
Proof.
  unfold Py.leb, Py.gtb, SFleb, SFltb. rewrite (SFcompare_antisym x y).
  by destruct (SFcompare x y) as [[]|].
Qed.

Lemma SFsub_diag_finite s m e :
  SFsub prec emax (S754_finite s m e) (S754_finite s m e) = S754_zero false.
Proof. unfold SFsub. by rewrite Z.sub_diag. Qed.

(** The percent change between a price and itself is 0, or a NaN when the
    price is plus infinity. *)
Lemma percent_change_same x :
  percent_change x (Some x) = Py.Ok Py.zero
  ∨ percent_change x (Some x) = Py.Ok S754_nan.
Proof.
  destruct x as [[]|[]| |[] m e]; try (by left); try (by right).
  left. cbv [percent_change Py.num mbind res_bind Py.bind Py.truediv Py.sub].
  by rewrite SFsub_diag_finite.
Qed.

Lemma drop_or_change_quiet product cp :
  Py.gtb (Product.alert_threshold_percent product) Py.zero = true →
  cp = Py.zero ∨ cp = S754_nan →
  drop_or_change product cp = None.
Proof.
  intros Hthr Hcp. unfold drop_or_change.
  destruct (Product.alert_threshold_percent product) as [[]|[]| |[] m e];
    try done;
    destruct Hcp as [-> | ->]; simpl; by rewrite ?andb_false_r.
Qed.

Lemma check_alert_names h product current a :
  check h product current = Py.Ok (Some a) →
  PriceAlert.product a = Product.name product
  ∧ PriceAlert.url a = Product.url product.
Proof.
  unfold _check_alert_conditions.
  destruct (last _) as [prior|]; [|done].
  destruct (PriceRecord.price prior) as [lp|]; [|done]. simpl.
  destruct (percent_change lp _) as [cp|]; [|done]. simpl.
  destruct (choose_alert_type _ _ _ _) as [[k|]|]; simpl; try done.
  by intros [= <-].
Qed.

Lemma check_alert_timestamp h product current a :
  check h product current = Py.Ok (Some a) →
  PriceAlert.timestamp a = PriceRecord.timestamp current.
Proof.
  unfold _check_alert_conditions.
  destruct (last _) as [prior|]; [|done].
  destruct (PriceRecord.price prior) as [lp|]; [|done]. simpl.
  destruct (percent_change lp _) as [cp|]; [|done]. simpl.
  destruct (choose_alert_type _ _ _ _) as [[k|]|]; simpl; try done.
  by intros [= <-].
Qed.

(** X3.  Observing again the price stored last never raises an alert, for
    a product whose threshold is strictly positive: whatever the target
    and the any-change flag are, the evaluation returns no alert. *)
Theorem X3_unchanged_price_no_alert h product prior current x :
  last (records_of h (key_of product)) = Some prior →
  PriceRecord.price prior = Some x →
  PriceRecord.price current = Some x →
  Py.gtb (Product.alert_threshold_percent product) Py.zero = true →
  check h product current = Py.Ok None.
Proof.
  intros Hlast Hprior Hcur Hthr.
  unfold _check_alert_conditions. unfold records_of in Hlast.
  rewrite Hlast, Hprior, Hcur. simpl.
  assert (Hq : ∀ cp, cp = Py.zero ∨ cp = S754_nan →
                choose_alert_type product x (Some x) cp = Py.Ok None).
  { intros cp Hcp. unfold choose_alert_type.
    rewrite (drop_or_change_quiet product cp Hthr Hcp).
    destruct (Product.target_price product) as [t|]; [|done].
    destruct (Py.truthy t); [|done]. simpl.
    destruct (Py.leb x t) eqn:Hle; [|done].
    by rewrite (leb_not_gtb _ _ Hle). }
  destruct (percent_change_same x) as [-> | ->]; simpl; by rewrite Hq; auto.
Qed.

(** X4.  What each kind of alert tells about the inputs.  A target_reached
    alert means the product has a non-zero target, the current price is at
    or below it and the prior price was strictly above it.  A drop alert
    means the reported percent change is at or below minus the threshold.
    A change alert means the product has the any-change flag, the reported
    change exceeds 0.01 in absolute value and is not at or below minus the
    threshold.  In every case the alert names the product and its URL and
    carries the timestamp of the current record. *)
Theorem X4_alert_kind_is_justified h product current a :
  check h product current = Py.Ok (Some a) →
  PriceAlert.product a = Product.name product
  ∧ PriceAlert.url a = Product.url product
  ∧ PriceAlert.timestamp a = PriceRecord.timestamp current
  ∧ match PriceAlert.alert_type a with
    | kind_target_reached =>
        ∃ target lp cur,
          Product.target_price product = Some target
          ∧ Py.truthy target = true
          ∧ PriceAlert.old_price a = Some lp
          ∧ PriceAlert.new_price a = Some cur
          ∧ Py.leb cur target = true
          ∧ Py.gtb lp target = true
    | kind_drop =>
        Py.leb (PriceAlert.change_percent a)
          (Py.neg (Product.alert_threshold_percent product)) = true
    | kind_change =>
        Product.alert_on_any_change product = true
        ∧ Py.gtb (Py.abs (PriceAlert.change_percent a)) one_hundredth = true
        ∧ Py.leb (PriceAlert.change_percent a)
            (Py.neg (Product.alert_threshold_percent product)) = false
    end.
Proof.
  unfold _check_alert_conditions.
  destruct (last _) as [prior|]; [|done].
  destruct (PriceRecord.price prior) as [lp|]; [|done]. simpl.
  destruct (percent_change lp _) as [cp|]; [|done]. simpl.
  destruct (choose_alert_type product lp (PriceRecord.price current) cp)
    as [[k|]|] eqn:Hk; simpl; try done.
  intros [= <-]. simpl. do 3 (split; [done|]).
  assert (Hdc : ∀ k', drop_or_change product cp = Some k' →
            match k' with
            | kind_target_reached => False
            | kind_drop =>
                Py.leb cp (Py.neg (Product.alert_threshold_percent product)) = true
            | kind_change =>
                Product.alert_on_any_change product = true
                ∧ Py.gtb (Py.abs cp) one_hundredth = true
                ∧ Py.leb cp (Py.neg (Product.alert_threshold_percent product)) = false
            end).
  { intros k'. unfold drop_or_change.
    destruct (Py.leb cp _); [by intros [= <-]|].
    destruct (Product.alert_on_any_change product); simpl; [|done].
    destruct (Py.gtb _ one_hundredth); [by intros [= <-]|done]. }
  unfold choose_alert_type in Hk.
  destruct (Product.target_price product) as [t|] eqn:Ht.
  - destruct (Py.truthy t) eqn:Htruthy.
    + destruct (PriceRecord.price current) as [cur|]; [|done]. simpl in Hk.
      destruct (Py.leb cur t) eqn:Hle.
      * destruct (Py.gtb lp t) eqn:Hgt; [|done].
        injection Hk as <-. by exists t, lp, cur.
      * injection Hk as Hk. specialize (Hdc k Hk). by destruct k.
    + injection Hk as Hk. specialize (Hdc k Hk). by destruct k.
  - injection Hk as Hk. specialize (Hdc k Hk). by destruct k.
Qed.

(** X5.  A target price of zero (plus or minus) is no target: the product
    is evaluated exactly as the same product without a target. *)
Theorem X5_zero_target_is_no_target h url name selector target any_change
    threshold current :
  Py.truthy target = false →
  check h (Product.mk url name selector (Some target) any_change threshold)
    current
  = check h (Product.mk url name selector None any_change threshold) current.
Proof.
  intros Ht. unfold _check_alert_conditions, choose_alert_type. simpl.
  by rewrite Ht.
Qed.

End RulesMore.

(* ===================================================================== *)
(** ** Further properties of the cycle                                     *)
(* ===================================================================== *)

Section CycleMore.

Variable md5_hexdigest : Py.str -> Py.str.

Abbreviation key_of product :=
  (_get_product_key md5_hexdigest (Product.url product)).
Abbreviation check := (_check_alert_conditions md5_hexdigest).
Abbreviation loop := (check_all_loop md5_hexdigest).

Implicit Types (h : gmap (list N) (list PriceRecord.t))
               (product : Product.t) (current r prior : PriceRecord.t)
               (obs : observation) (alerts : list PriceAlert.t)
               (todo : list (Product.t * observation)).

(** A call of [check_all] that returns has run its loop to the end, and
    returns the loop's alerts; the history it leaves is the loop's. *)
Lemma check_all_Ok self world save_error alerts :
  (check_all md5_hexdigest self world save_error).1 = Py.Ok alerts →
  (loop (zip (products self) world) [] (history self)).1 = Py.Ok alerts.
Proof.
  unfold check_all.
  destruct (loop _ _ _) as [[alerts'|e] h']; simpl; [|done].
  by destruct save_error.
Qed.

Lemma check_all_history self world save_error :
  history (check_all md5_hexdigest self world save_error).2
  = (loop (zip (products self) world) [] (history self)).2.
Proof. unfold check_all. by destruct (loop _ _ _). Qed.

Lemma loop_app todo1 todo2 alerts h :
  loop (todo1 ++ todo2) alerts h
  = match loop todo1 alerts h with
    | (Py.Ok alerts1, h1) => loop todo2 alerts1 h1
    | (Py.Raise e, h1) => (Py.Raise e, h1)
    end.
Proof.
  revert alerts h. induction todo1 as [|[p o] todo1 IH]; intros alerts h; simpl.
  - done.
  - destruct (scrape_price p o) as [[record|]|e]; [|apply IH|done].
    destruct (check h p record) as [alert|e]; [apply IH|done].
Qed.





Lemma scrape_price_priced product obs r :
  scrape_price product obs = Py.Ok (Some r) → is_Some (PriceRecord.price r).
Proof.
  intros Hr. destruct (scrape_price_positive product obs r Hr) as (x & -> & _).
  done.
Qed.




(** The alerts a loop returns: those it was given, then the alerts of
    some of the visits, in the order of the visits and one per visit. *)
Lemma loop_alerts todo alerts h alerts' :
  (loop todo alerts h).1 = Py.Ok alerts' →
  ∃ new visits, alerts' = alerts ++ new
                ∧ visits `sublist_of` todo
                ∧ Forall2 alert_of_visit new visits.
Proof.
  revert alerts h.
  induction todo as [|[p o] todo IH]; intros alerts h; simpl.
  - intros [= <-]. exists [], []. by rewrite app_nil_r.
  - destruct (scrape_price p o) as [[record|]|e] eqn:Hs; [| |done].
    + destruct (check h p record) as [[a|]|e] eqn:Hc; [| |done].
      * intros H. destruct (IH _ _ H) as (new & visits & -> & Hsub & Hall).
        exists (a :: new), ((p, o) :: visits). rewrite <- app_assoc.
        split; [done|]. split; [by apply sublist_skip|].
        constructor; [|done].
        destruct (check_alert_payload _ _ _ _ _ Hc)
          as (prior & lp & _ & _ & _ & Hold & Hnew).
        destruct (check_alert_names _ h p record a Hc) as (Hn & Hu).
        pose proof (check_alert_timestamp _ h p record a Hc) as Ht.
        destruct (scrape_price_timestamp _ _ _ Hs) as (_ & _ & Hts).
        unfold alert_of_visit. simpl. rewrite Hold, Hnew, Ht, Hts.
        split; [done|]. split; [done|]. split; [done|].
        split; [done|]. by eapply scrape_price_priced.
      * intros H. destruct (IH _ _ H) as (new & visits & -> & Hsub & Hall).
        exists new, visits. split; [done|]. split; [by apply sublist_cons|done].
    + intros H. destruct (IH _ _ H) as (new & visits & -> & Hsub & Hall).
      exists new, visits. split; [done|]. split; [by apply sublist_cons|done].
Qed.

Lemma records_of_save_ne h key k r :
  key ≠ k → records_of (save_to_history h key r) k = records_of h k.
Proof. intros Hne. unfold records_of. by rewrite save_to_history_lookup_ne. Qed.

Lemma scraped_cons k p o todo :
  scraped md5_hexdigest k ((p, o) :: todo)
  = match (if decide (key_of p = k)
           then match scrape_price p o with
                | Py.Ok record => record
                | Py.Raise _ => None
                end
           else None) with
    | Some r => r :: scraped md5_hexdigest k todo
    | None => scraped md5_hexdigest k todo
    end.
Proof. done. Qed.

(** The records a product ends a completed loop with. *)
Lemma loop_history todo alerts h alerts' k :
  (loop todo alerts h).1 = Py.Ok alerts' →
  records_of (loop todo alerts h).2 k
  = match scraped md5_hexdigest k todo with
    | [] => records_of h k
    | new => slice_last 100 (records_of h k ++ new)
    end.
Proof.
  revert alerts h.
  induction todo as [|[p o] todo IH]; intros alerts h; [done|].
  rewrite scraped_cons. simpl.
  destruct (scrape_price p o) as [[record|]|e] eqn:Hs; [| |done].
  - destruct (check h p record) as [alert|e]; [|done].
    intros H. rewrite (IH _ _ H). clear IH H.
    destruct (decide (key_of p = k)) as [<-|Hne].
    + rewrite records_of_save.
      destruct (scraped md5_hexdigest (key_of p) todo) as [|r' new]; [done|].
      by rewrite slice_last_app, <- app_assoc.
    + by rewrite !records_of_save_ne.
  - intros H. rewrite (IH _ _ H). by destruct (decide _).
Qed.

(** X7.  A completed cycle returns at most one alert per visit of a
    product: its alerts are, in order, the alerts of some of the visits,
    each visit being used once; an alert names the product visited by name
    and URL, carries the time of that observation and has both its old and
    its new price set.  So there are no more alerts than products or
    observations, and when no two products share a URL, no two alerts
    do. *)
Theorem X7_at_most_one_alert_per_product self world save_error alerts :
  (check_all md5_hexdigest self world save_error).1 = Py.Ok alerts →
  (∃ visits, visits `sublist_of` zip (products self) world
             ∧ Forall2 alert_of_visit alerts visits)
  ∧ (NoDup (Product.url <$> products self) →
     NoDup (PriceAlert.url <$> alerts))
  ∧ length alerts ≤ length (products self)
  ∧ length alerts ≤ length world
  ∧ Forall (λ a, ∃ product, product ∈ products self
               ∧ PriceAlert.url a = Product.url product
               ∧ PriceAlert.product a = Product.name product
               ∧ is_Some (PriceAlert.old_price a)
               ∧ is_Some (PriceAlert.new_price a)) alerts.
Proof.
  intros H%check_all_Ok.
  destruct (loop_alerts (zip (products self) world) [] (history self) alerts H)
    as (new & visits & -> & Hsub & Hall). simpl.
  pose proof (Forall2_length _ _ _ Hall) as Hlen.
  pose proof (sublist_length _ _ Hsub) as Hlen'.
  rewrite length_zip in Hlen'.
  split; [by exists visits|]. split; [|split; [lia|split; [lia|]]].
  - intros Hnodup.
    assert (Hurls : PriceAlert.url <$> new
                    = (λ po, Product.url po.1) <$> visits).
    { clear -Hall. induction Hall as [|a po new visits Ha _ IH]; [done|].
      simpl. f_equal; [apply Ha|done]. }
    rewrite Hurls.
    eapply sublist_NoDup; [|by apply fmap_sublist].
    eapply sublist_NoDup; [exact Hnodup|].
    clear. revert world.
    induction (products self) as [|p ps IH]; intros [|o world]; simpl;
      try apply sublist_nil_l.
    by apply sublist_skip.
  - assert (Hin : ∀ po, po ∈ visits → po ∈ zip (products self) world).
    { intros po Hpo. by eapply elem_of_sublist. }
    clear -Hall Hin. induction Hall as [|a po new visits Ha _ IH]; [done|].
    constructor.
    + exists po.1. destruct Ha as (Hu & Hn & _ & Ho & Hp).
      split; [|done].
      assert (Hpo : po ∈ zip (products self) world) by (apply Hin; by left).
      destruct po as [p o]. by eapply elem_of_zip_l.
    + apply IH. intros po' Hpo'. apply Hin. by right.
Qed.

(** X8.  The history a completed cycle leaves, as [get_price_history]
    shows it.  For a URL none of whose scrapes gave a record the history
    is what it was; otherwise it is the last 100 of the old history
    followed by the records scraped for that key, in the order of the
    cycle, so it has at most 100 records and ends with the record
    scraped last. *)
Theorem X8_history_after_cycle self world save_error alerts url :
  (check_all md5_hexdigest self world save_error).1 = Py.Ok alerts →
  let before := get_price_history md5_hexdigest self url in
  let after := get_price_history md5_hexdigest
                 (check_all md5_hexdigest self world save_error).2 url in
  let new := scraped md5_hexdigest (_get_product_key md5_hexdigest url)
               (zip (products self) world) in
  (new = [] → after = before)
  ∧ (new ≠ [] → after = slice_last 100 (before ++ new)
               ∧ length after ≤ 100 ∧ last after = last new).
Proof.
  intros H%check_all_Ok. unfold get_price_history. cbv zeta.
  rewrite check_all_history.
  apply (loop_history _ _ _ _ (_get_product_key md5_hexdigest url)) in H.
  unfold records_of in H. rewrite H. clear H.
  destruct (scraped _ _ _) as [|r new] eqn:En; (split; [done|]).
  - done.
  - intros _. split; [done|]. split; [apply slice_last_length|].
    assert (Hlast : ∀ (l : list PriceRecord.t) n x, last l = Some x →
              n < length l → last (drop n l) = Some x).
    { intros l n x [l' ->]%last_Some Hn.
      rewrite length_app in Hn. simpl in Hn.
      rewrite drop_app_le by lia. apply last_snoc. }
    destruct (proj2 (last_is_Some (r :: new))) as [x Hx]; [done|].
    rewrite Hx. unfold slice_last. apply Hlast.
    + by rewrite last_app, Hx.
    + rewrite length_app. simpl. lia.
Qed.


(** X10.  A stored record without a price stops the cycle.  When the
    cycle reaches a product whose newest stored record has no price and
    whose scrape succeeds, it raises TypeError: the alerts collected so
    far are not returned, the new record is not stored, the products
    after it are not visited, and the history keeps what the products
    before it added. *)
Theorem X10_unpriced_record_aborts_cycle before product obs rest alerts h
    alerts1 h1 prior r :
  loop before alerts h = (Py.Ok alerts1, h1) →
  last (records_of h1 (key_of product)) = Some prior →
  PriceRecord.price prior = None →
  scrape_price product obs = Py.Ok (Some r) →
  loop (before ++ (product, obs) :: rest) alerts h
  = (Py.Raise Py.TypeError, h1).
Proof.
  intros Hbefore Hlast Hnone Hr.
  rewrite loop_app, Hbefore. simpl. rewrite Hr.
  unfold _check_alert_conditions. unfold records_of in Hlast.
  by rewrite Hlast, Hnone.
Qed.

(** X11.  Registering a product puts it at the end of the cycle: the
    cycle of the enlarged monitor visits the old products as the old
    cycle does and then the new product, on the alerts and the history
    they leave, and saves after that (the world giving one observation per
    product; the old cycle is taken with a save that succeeds). *)
Theorem X11_add_product_extends_cycle self product world obs save_error :
  length world = length (products self) →
  check_all md5_hexdigest (add_product self product) (world ++ [obs])
    save_error
  = match check_all md5_hexdigest self world None with
    | (Py.Ok alerts, self') =>
        let '(res, h) := loop [(product, obs)] alerts (history self') in
        (alerts' ← res; _ ← _save_history save_error; mret alerts',
         mk_monitor (products self ++ [product]) h)
    | (Py.Raise e, self') =>
        (Py.Raise e, mk_monitor (products self ++ [product]) (history self'))
    end.
Proof.
  intros Hlen. unfold check_all, add_product. simpl products. simpl history.
  rewrite zip_with_app by done. simpl zip_with.
  rewrite loop_app.
  destruct (loop (zip (products self) world) [] (history self))
    as [[alerts|e] h1]; [|done].
  simpl. by destruct (loop [(product, obs)] alerts h1).
Qed.

End CycleMore.

(* ===================================================================== *)
(** ** Two-decimal prices through [float] and [.2f]                        *)
(* ===================================================================== *)

Section Hundredths.

Local Open Scope Z_scope.

Lemma digits2_pos_bounds p :
  2 ^ (Zpos (digits2_pos p) - 1) <= Zpos p < 2 ^ Zpos (digits2_pos p).
Proof.
  induction p as [p IH|p IH|]; simpl digits2_pos.
  - rewrite Pos2Z.inj_succ.
    replace (Z.succ (Z.pos (digits2_pos p)) - 1) with (Z.succ (Z.pos (digits2_pos p) - 1)) by lia.
    rewrite !Z.pow_succ_r by lia. lia.
  - rewrite Pos2Z.inj_succ.
    replace (Z.succ (Z.pos (digits2_pos p)) - 1) with (Z.succ (Z.pos (digits2_pos p) - 1)) by lia.
    rewrite !Z.pow_succ_r by lia. lia.
  - simpl. lia.
Qed.

Lemma round_half_even_near (a : N) (b : positive) (n : N) :
  (2 * Z.abs (Z.of_N a - Z.of_N n * Zpos b) < Zpos b) ->
  Py.round_half_even a b = n.
Proof.
  intros H. unfold Py.round_half_even.
  pose proof (N.div_mod a (Npos b) ltac:(done)) as Hdm.
  pose proof (N.mod_lt a (Npos b) ltac:(done)) as Hlt.
  set (q := (a / N.pos b)%N) in *. set (r := (a mod N.pos b)%N) in *.
  assert (Hz : Z.of_N a = Zpos b * Z.of_N q + Z.of_N r) by lia.
  assert (Hr : 0 <= Z.of_N r < Zpos b) by lia.
  assert (Hq : 0 <= Z.of_N q) by lia. assert (Hn : 0 <= Z.of_N n) by lia.
  clear Hdm Hlt.
  assert (Hcases : Z.of_N q = Z.of_N n \/ Z.of_N q + 1 = Z.of_N n
                   \/ Z.of_N q + 2 <= Z.of_N n \/ Z.of_N n + 1 <= Z.of_N q) by lia.
  destruct (N.compare_spec (2 * r) (N.pos b)) as [E|E|E];
    [assert (2 * Z.of_N r = Zpos b) by lia
    |assert (2 * Z.of_N r < Zpos b) by lia
    |assert (2 * Z.of_N r > Zpos b) by lia];
    destruct Hcases as [Hc|[Hc|[Hc|Hc]]];
    try (exfalso; nia); try lia.
Qed.

Lemma digits2_pos_eq p k :
  2 ^ (k - 1) <= Zpos p < 2 ^ k -> 0 < k -> Zpos (digits2_pos p) = k.
Proof.
  intros [H1 H2] Hk. pose proof (digits2_pos_bounds p) as [B1 B2].
  set (d := Zpos (digits2_pos p)) in *. assert (0 < d) by (subst d; lia).
  destruct (Z.lt_trichotomy d k) as [Hlt|[Heq|Hgt]]; [|done|].
  - pose proof (Z.pow_le_mono_r 2 d (k - 1) ltac:(lia) ltac:(lia)). lia.
  - pose proof (Z.pow_le_mono_r 2 k (d - 1) ltac:(lia) ltac:(lia)). lia.
Qed.

Lemma shift_amount q e k :
  Zpos (digits2_pos q) = k -> -1074 <= k + e - 53 ->
  fexp prec emax (Zdigits2 (Zpos q) + e) - e = k - 53.
Proof.
  intros Hk He. unfold fexp, emin, prec, emax. simpl Zdigits2. lia.
Qed.

Lemma loc_roundtrip m l : loc_of_shr_record (shr_record_of_loc m l) = l.
Proof. by destruct l as [|[]]. Qed.

Lemma new_location_100 r :
  0 <= r < 100 ->
  (new_location 100 r = loc_Exact /\ r = 0)
  \/ (new_location 100 r = loc_Inexact Lt /\ 0 < 2 * r < 100)
  \/ (new_location 100 r = loc_Inexact Eq /\ 2 * r = 100)
  \/ (new_location 100 r = loc_Inexact Gt /\ 100 < 2 * r).
Proof.
  intros Hr. unfold new_location. change (Z.even 100) with true. cbv iota.
  unfold new_location_even.
  destruct (Z.eqb_spec r 0) as [->|Hne]; [by left|right].
  destruct (Z.compare_spec (2 * r) 100); [right; left|left|right; right]; split; try done; lia.
Qed.

(** The second normalisation: a mantissa of 53 bits stays, 2^53 is halved. *)
Lemma renormalise m1 e :
  2 ^ 52 <= Zpos m1 <= 2 ^ 53 -> -1000 <= e <= 0 ->
  exists m j,
    shr_fexp prec emax (Zpos m1) e loc_Exact
    = (Build_shr_record (Zpos m) false false, e + j)
    /\ (j = 0 \/ j = 1) /\ Zpos m * 2 ^ j = Zpos m1.
Proof.
  intros Hm He.
  destruct (Z.eq_dec (Zpos m1) (2 ^ 53)) as [E|Hne].
  - injection E as ->. exists (2 ^ 52)%positive, 1. split; [|split; [by right|done]].
    unfold shr_fexp. rewrite (shift_amount _ e 54) by (done || lia).
    simpl. done.
  - exists m1, 0. split; [|split; [by left|lia]].
    unfold shr_fexp. rewrite (shift_amount _ e 53).
    + simpl. by rewrite Z.add_0_r.
    + apply digits2_pos_eq; lia.
    + lia.
Qed.

Lemma round_first q e r :
  2 ^ 52 <= Zpos q < 2 ^ 54 -> -1000 <= e <= 0 -> 0 <= r < 100 ->
  exists mrs' j m1,
    shr_fexp prec emax (Zpos q) e (new_location 100 r) = (mrs', e + j)
    /\ round_nearest_even (shr_m mrs') (loc_of_shr_record mrs') = Zpos m1
    /\ (j = 0 \/ j = 1)
    /\ 2 ^ 52 <= Zpos m1 <= 2 ^ 53
    /\ 2 * Z.abs (100 * Zpos m1 * 2 ^ j - (100 * Zpos q + r)) <= 100 * 2 ^ j.
Proof.
  intros Hq He Hr.
  change (2 ^ 52) with 4503599627370496 in *.
  change (2 ^ 53) with 9007199254740992 in *.
  change (2 ^ 54) with 18014398509481984 in *.
  destruct (Z.lt_ge_cases (Zpos q) 9007199254740992) as [Hlt|Hge].
  - (* 53 bits: no shift *)
    assert (Hs : shr_fexp prec emax (Zpos q) e (new_location 100 r)
                 = (shr_record_of_loc (Zpos q) (new_location 100 r), e + 0)).
    { unfold shr_fexp. rewrite (shift_amount _ e 53).
      - simpl. by rewrite Z.add_0_r.
      - apply digits2_pos_eq; [|lia].
        change (2 ^ (53 - 1)) with 4503599627370496.
        change (2 ^ 53) with 9007199254740992. lia.
      - lia. }
    exists (shr_record_of_loc (Zpos q) (new_location 100 r)), 0.
    assert (Hm : shr_m (shr_record_of_loc (Z.pos q) (new_location 100 r)) = Zpos q)
      by (by destruct (new_location 100 r) as [|[]]).
    destruct (new_location_100 r Hr) as [[Hl ?]|[[Hl ?]|[[Hl ?]|[Hl ?]]]].
    + exists q. split; [exact Hs|]. rewrite loc_roundtrip, Hm, Hl. simpl.
      split; [done|]. split; [by left|]. split; lia.
    + exists q. split; [exact Hs|]. rewrite loc_roundtrip, Hm, Hl. simpl.
      split; [done|]. split; [by left|]. split; lia.
    + destruct (Z.even (Zpos q)) eqn:Hev.
      * exists q. split; [exact Hs|]. rewrite loc_roundtrip, Hm, Hl. cbv [round_nearest_even].
        rewrite Hev.
        split; [done|]. split; [by left|]. split; lia.
      * exists (q + 1)%positive. split; [exact Hs|]. rewrite loc_roundtrip, Hm, Hl.
        cbv [round_nearest_even]. rewrite Hev.
        split; [done|]. split; [by left|]. split; lia.
    + exists (q + 1)%positive. split; [exact Hs|]. rewrite loc_roundtrip, Hm, Hl. simpl.
      split; [done|]. split; [by left|]. split; lia.
  - (* 54 bits: one shift *)
    assert (Hs : shr_fexp prec emax (Zpos q) e (new_location 100 r)
                 = (shr_1 (shr_record_of_loc (Zpos q) (new_location 100 r)), e + 1)).
    { unfold shr_fexp. rewrite (shift_amount _ e 54).
      - simpl. done.
      - apply digits2_pos_eq; [|lia].
        change (2 ^ (54 - 1)) with 9007199254740992.
        change (2 ^ 54) with 18014398509481984. lia.
      - lia. }
    exists (shr_1 (shr_record_of_loc (Zpos q) (new_location 100 r))), 1.
    destruct (new_location_100 r Hr) as [[Hl ?]|[[Hl ?]|[[Hl ?]|[Hl ?]]]];
      rewrite Hl in Hs |- *; destruct q as [p|p|]; try lia.
    all: cbv [shr_1 shr_record_of_loc loc_of_shr_record shr_m
              round_nearest_even orb] in Hs |- *.
    all: try (exists p; split; [exact Hs|]; split; [done|]; split; [by right|]; split; lia).
    all: try (exists (p + 1)%positive; split; [exact Hs|]; split; [done|]; split; [by right|]; split; lia).
    all: destruct (Z.even (Zpos p)).
    all: try (exists p; split; [exact Hs|]; split; [done|]; split; [by right|]; split; lia).
    all: try (exists (p + 1)%positive; split; [exact Hs|]; split; [done|]; split; [by right|]; split; lia).
Qed.

Lemma binary_round_aux_100 q e r :
  2 ^ 52 <= Zpos q < 2 ^ 54 -> -1000 <= e <= -2 -> 0 <= r < 100 ->
  exists m j,
    binary_round_aux prec emax false (Zpos q) e (new_location 100 r)
    = S754_finite false m (e + j)
    /\ 0 <= j <= 2
    /\ 2 * Z.abs (100 * Zpos m * 2 ^ j - (100 * Zpos q + r)) <= 100 * 2 ^ j.
Proof.
  intros Hq He Hr.
  destruct (round_first q e r Hq ltac:(lia) Hr)
    as (mrs' & j1 & m1 & Hs1 & Hr1 & Hj1 & Hm1 & Hb1).
  destruct (renormalise m1 (e + j1) Hm1 ltac:(lia))
    as (m & j2 & Hs2 & Hj2 & Hm).
  exists m, (j1 + j2).
  unfold binary_round_aux. rewrite Hs1, Hr1, Hs2. cbv [shr_m].
  assert (Hle : (e + j1 + j2 <=? emax - prec) = true)
    by (apply Z.leb_le; unfold emax, prec; lia).
  rewrite Hle, Z.add_assoc. split; [done|]. split; [lia|].
  rewrite Z.pow_add_r by lia.
  destruct Hj2 as [-> | ->]; [rewrite Z.pow_0_r in *|rewrite Z.pow_1_r in *];
    destruct Hj1 as [-> | ->]; simpl (2 ^ _) in *; lia.
Qed.

Lemma of_decimal_hundredths (n : positive) :
  Zpos n < 2 ^ 51 ->
  exists m k,
    Py.of_decimal (Npos n) 2 = S754_finite false m (Zneg k)
    /\ 2 * Z.abs (100 * Zpos m - Zpos n * 2 ^ Zpos k) < 2 ^ Zpos k.
Proof.
  intros Hn.
  pose proof (digits2_pos_bounds n) as [B1 B2].
  set (d := Zpos (digits2_pos n)) in *.
  assert (Hd1 : 1 <= d) by (subst d; lia).
  assert (Hd : d <= 51).
  { destruct (Z.le_gt_cases d 51) as [|Hgt]; [done|].
    pose proof (Z.pow_le_mono_r 2 51 (d - 1) ltac:(lia) ltac:(lia)). lia. }
  unfold Py.of_decimal. change (Py.pow10 2) with 100%positive.
  unfold SFdiv, SFdiv_core_binary. cbv zeta.
  change (Zdigits2 (Zpos n)) with d. change (Zdigits2 100) with 7.
  replace (Z.min (fexp prec emax (d + 0 - (7 + 0))) (0 - 0)) with (d - 60)
    by (unfold fexp, emin, prec, emax; lia).
  replace (0 - 0 - (d - 60)) with (60 - d) by lia.
  destruct (60 - d) as [|s|s] eqn:Es; try lia.
  rewrite Z.shiftl_mul_pow2 by lia.
  assert (Hpow : 2 ^ (d - 1) * 2 ^ Zpos s = 2 ^ 59).
  { rewrite <- Z.pow_add_r by lia. f_equal. lia. }
  assert (Hpow' : 2 ^ d * 2 ^ Zpos s = 2 ^ 60).
  { rewrite <- Z.pow_add_r by lia. f_equal. lia. }
  assert (Hs0 : 0 < 2 ^ Zpos s) by (apply Z.pow_pos_nonneg; lia).
  set (m' := Zpos n * 2 ^ Zpos s).
  assert (Hm' : 2 ^ 59 <= m' < 2 ^ 60) by (subst m'; nia).
  pose proof (Z_div_mod m' 100 eq_refl) as Hdiv.
  destruct (Z.div_eucl m' 100) as [q r]. destruct Hdiv as [Hqr Hr].
  change (2 ^ 59) with 576460752303423488 in Hm'.
  change (2 ^ 60) with 1152921504606846976 in Hm'.
  destruct q as [|q|q]; try lia.
  cbv beta iota. change (xorb false false) with false.
  destruct (binary_round_aux_100 q (d - 60) r) as (m & j & -> & Hj & Hb).
  { change (2 ^ 52) with 4503599627370496.
    change (2 ^ 54) with 18014398509481984. lia. }
  { lia. }
  { lia. }
  destruct (d - 60 + j) as [|k|k] eqn:Ek; try lia.
  exists m, k. split; [done|].
  assert (Hk : Zpos s = Zpos k + j) by lia.
  assert (Hk7 : 7 <= Zpos k) by lia.
  assert (Hkp : 2 ^ 7 <= 2 ^ Zpos k) by (apply Z.pow_le_mono_r; lia).
  change (2 ^ 7) with 128 in Hkp.
  assert (Hm'k : m' = Zpos n * 2 ^ Zpos k * 2 ^ j).
  { subst m'. rewrite Hk, Z.pow_add_r by lia. lia. }
  assert (Hj0 : 0 < 2 ^ j) by (apply Z.pow_pos_nonneg; lia).
  rewrite <- Hqr, Hm'k in Hb.
  replace (100 * Z.pos m * 2 ^ j - Z.pos n * 2 ^ Z.pos k * 2 ^ j)
    with ((100 * Z.pos m - Z.pos n * 2 ^ Z.pos k) * 2 ^ j) in Hb by lia.
  rewrite Z.abs_mul, (Z.abs_eq (2 ^ j)) in Hb by lia.
  nia.
Qed.

Lemma format_hundredths (n : N) :
  (n < 2 ^ 51)%N ->
  Py.format_f false 2 (Py.of_decimal n 2)
  = Py.str_of_N (n / 100) ++ Py.dot
      :: replicate (2 - length (Py.str_of_N (n mod 100))) 48%N
      ++ Py.str_of_N (n mod 100).
Proof.
  intros Hn. destruct n as [|n]; [done|].
  destruct (of_decimal_hundredths n) as (m & k & -> & Hb).
  { change (2 ^ 51) with (Z.of_N (2 ^ 51)). lia. }
  unfold Py.format_f. cbv zeta. cbv [Py.scaled_magnitude].
  change (Py.pow10 2) with 100%positive.
  rewrite (round_half_even_near _ _ (Npos n)); [done|].
  rewrite Pos2Z.inj_pow. simpl Z.of_N. lia.
Qed.

End Hundredths.

(* ===================================================================== *)
(** ** Plain numbers: from the text to the message                         *)
(* ===================================================================== *)

Section PlainNumbers.

Implicit Types (s t text prefix ip fp : Py.str) (c : Py.codepoint).

Lemma digits_value_uint_acc d (acc : positive) :
  Py.digits_value (Npos acc) (Py.uint_codepoints d)
  = Some (Npos (Pos.of_uint_acc d acc)).
Proof.
  revert acc. induction d as [|d IH|d IH|d IH|d IH|d IH|d IH|d IH|d IH|d IH|d IH];
    intros acc; [done|..];
    cbn [Py.uint_codepoints Py.digits_value Pos.of_uint_acc];
    (etrans; [|apply IH]); vm_compute Py.decimal; f_equal; lia.
Qed.

Lemma digits_value_uint d :
  Py.digits_value 0 (Py.uint_codepoints d) = Some (Pos.of_uint d).
Proof.
  induction d as [|d IH|d IH|d IH|d IH|d IH|d IH|d IH|d IH|d IH|d IH];
    [done|exact IH|..];
    cbn [Py.uint_codepoints Py.digits_value Pos.of_uint];
    vm_compute Py.decimal; apply digits_value_uint_acc.
Qed.

Lemma str_of_N_value (n : N) : Py.digits_value 0 (Py.str_of_N n) = Some n.
Proof.
  unfold Py.str_of_N. rewrite digits_value_uint.
  f_equal. apply DecimalN.Unsigned.of_to.
Qed.

Lemma uint_codepoints_decimals d : decimals (Py.uint_codepoints d).
Proof.
  induction d; simpl; constructor; done.
Qed.

Lemma str_of_N_nonempty (n : N) : Py.str_of_N n ≠ [].
Proof.
  unfold Py.str_of_N. destruct n as [|p]; [done|]. simpl.
  pose proof (DecimalPos.Unsigned.to_uint_nonnil p) as H.
  by destruct (Pos.to_uint p).
Qed.

Lemma digits_value_is_Some s acc acc' :
  is_Some (Py.digits_value acc s) → is_Some (Py.digits_value acc' s).
Proof.
  revert acc acc'. induction s as [|c s IH]; intros acc acc'; simpl; [done|].
  destruct (Py.decimal c); [apply IH|done].
Qed.

Lemma digits_value_acc s v :
  Py.digits_value 0 s = Some v →
  ∀ acc, Py.digits_value acc s
         = Some (acc * 10 ^ N.of_nat (length s) + v)%N.
Proof.
  revert v. induction s as [|c s IH]; intros v.
  - intros [= <-] acc. simpl. f_equal. lia.
  - simpl. destruct (Py.decimal c) as [d|]; [|done].
    intros Hd acc.
    destruct (digits_value_is_Some s _ 0%N (mk_is_Some _ _ Hd)) as [v0 Hv0].
    rewrite (IH v0 Hv0) in Hd |- *. injection Hd as <-. f_equal.
    rewrite Nat2N.inj_succ, N.pow_succ_r'. lia.
Qed.

Lemma digits_value_app s t acc :
  Py.digits_value acc (s ++ t)
  = match Py.digits_value acc s with
    | Some v => Py.digits_value v t
    | None => None
    end.
Proof.
  revert acc. induction s as [|c s IH]; intros acc; simpl; [done|].
  destruct (Py.decimal c); [apply IH|done].
Qed.

Lemma frac2_checked : forallb frac2_ok (map N.of_nat (seq 0 100)) = true.
Proof. by vm_compute. Qed.

Lemma frac2_spec (b : N) :
  (b < 100)%N →
  let text := replicate (2 - length (Py.str_of_N b)) 48%N ++ Py.str_of_N b in
  length text = 2 ∧ decimals text ∧ Py.digits_value 0 text = Some b.
Proof.
  intros Hb.
  pose proof frac2_checked as H. rewrite forallb_forall in H.
  assert (Hin : In b (map N.of_nat (seq 0 100))).
  { apply in_map_iff. exists (N.to_nat b). split; [lia|]. apply in_seq. lia. }
  specialize (H b Hin). unfold frac2_ok in H. cbv zeta in *.
  apply andb_prop in H as [H12 H3]. apply andb_prop in H12 as [H1 H2].
  split; [by apply Nat.eqb_eq|]. split.
  - unfold decimals. apply Forall_forall. intros c Hc.
    rewrite forallb_forall in H2. apply H2. by apply list_elem_of_In.
  - destruct (Py.digits_value 0 _) as [v|]; [|done].
    by apply N.eqb_eq in H3 as ->.
Qed.

(** The text [two_decimals n]: digits, a dot, two digits, of value [n]. *)
Lemma two_decimals_spec (n : N) :
  ∃ ip fp, two_decimals n = ip ++ Py.dot :: fp
           ∧ decimals ip ∧ ip ≠ [] ∧ decimals fp ∧ length fp = 2
           ∧ Py.digits_value 0 (ip ++ fp) = Some n.
Proof.
  assert (Hb : (n mod 100 < 100)%N) by (by apply N.mod_lt).
  destruct (frac2_spec (n mod 100) Hb) as (Hlen & Hdec & Hval).
  eexists _, _. split; [reflexivity|].
  split; [apply uint_codepoints_decimals|].
  split; [apply str_of_N_nonempty|]. split; [done|]. split; [done|].
  rewrite digits_value_app, str_of_N_value.
  rewrite (digits_value_acc _ _ Hval), Hlen. f_equal.
  change (10 ^ N.of_nat 2)%N with 100%N.
  pose proof (N.div_mod n 100 ltac:(done)). lia.
Qed.

Lemma re_search_strip text :
  re_search (Py.remove_char comma (Py.strip text))
  = re_search (Py.remove_char comma text).
Proof.
  destruct (strip_decompose text) as (ws1 & ws2 & H1 & H2 & Et).
  rewrite Et at 2. rewrite !remove_char_app.
  rewrite (remove_char_id comma ws1), (remove_char_id comma ws2)
    by by apply spaces_no_comma.
  by rewrite re_search_spaces.
Qed.

Lemma re_search_skip prefix s :
  Forall (λ c, digit_or_comma c = false) prefix →
  re_search (prefix ++ s) = re_search s.
Proof. induction 1 as [|c prefix Hc _ IH]; simpl; [done|]. by rewrite Hc. Qed.

Lemma remove_comma_no_digit prefix :
  (∀ c, c ∈ prefix → Py.isdecimal c = false) →
  Forall (λ c, digit_or_comma c = false) (Py.remove_char comma prefix).
Proof.
  intros H. apply Forall_forall. intros c Hc.
  by apply (remove_comma_no_class prefix).
Qed.

Lemma take_drop_while_decimals ip s :
  decimals ip →
  take_while digit_or_comma (ip ++ Py.dot :: s) = ip
  ∧ drop_while digit_or_comma (ip ++ Py.dot :: s) = Py.dot :: s.
Proof.
  induction 1 as [|c ip Hc _ [IH1 IH2]]; simpl; [done|].
  unfold digit_or_comma at 1 3. rewrite Hc. simpl. by rewrite IH1, IH2.
Qed.

Lemma take_while_decimals fp : decimals fp → take_while Py.isdecimal fp = fp.
Proof. induction 1 as [|c fp Hc _ IH]; simpl; [done|]. by rewrite Hc, IH. Qed.

Lemma match_here_plain ip fp :
  decimals ip → decimals fp →
  match_here (ip ++ Py.dot :: fp) = ip ++ Py.dot :: fp.
Proof.
  intros Hip Hfp. unfold match_here.
  destruct (take_drop_while_decimals ip fp Hip) as [-> ->].
  by rewrite N.eqb_refl, take_while_decimals.
Qed.

Lemma re_search_plain ip fp :
  decimals ip → ip ≠ [] → decimals fp →
  re_search (ip ++ Py.dot :: fp) = Some (ip ++ Py.dot :: fp).
Proof.
  intros Hip Hne Hfp.
  rewrite <- (match_here_plain ip fp Hip Hfp) at 2.
  destruct ip as [|c ip]; [done|].
  change ((c :: ip) ++ Py.dot :: fp) with (c :: (ip ++ Py.dot :: fp)).
  cbn [re_search]. unfold digit_or_comma at 1.
  by rewrite (Forall_inv Hip).
Qed.

(** The parser on digits, a dot and digits, after any text without a
    digit. *)
Lemma _parse_price_plain prefix ip fp n :
  (∀ c, c ∈ prefix → Py.isdecimal c = false) →
  decimals ip → ip ≠ [] → decimals fp →
  Py.digits_value 0 (ip ++ fp) = Some n →
  ∃ currency,
    _parse_price (Some (prefix ++ ip ++ Py.dot :: fp))
    = Py.Ok (Some (Py.of_decimal n (length fp)), currency).
Proof.
  intros Hprefix Hip Hne Hfp Hn. unfold _parse_price. cbv zeta.
  rewrite re_search_strip, remove_char_app.
  rewrite re_search_skip by by apply remove_comma_no_digit.
  assert (Hnc : comma ∉ ip ++ Py.dot :: fp).
  { rewrite not_elem_of_app, not_elem_of_cons.
    split; [by apply decimals_no_comma|].
    split; [done|by apply decimals_no_comma]. }
  rewrite remove_char_id by done.
  rewrite re_search_plain by done.
  rewrite remove_char_id by done.
  unfold Py.float_of_str.
  destruct (before_dot_decimals ip fp Hip) as [-> ->].
  rewrite Hn.
  destruct ip as [|c ip]; [done|]. simpl. by eexists.
Qed.

Lemma format_alert_layout a old new :
  PriceAlert.old_price a = Some old → PriceAlert.new_price a = Some new →
  ∃ before after,
    format_alert a
    = Py.Ok (before ++ Py.lit "   $" ++ Py.format_f false 2 old ++ Py.lit " "
               ++ lit_arrow ++ Py.lit " $" ++ Py.format_f false 2 new
               ++ after).
Proof.
  intros Hold Hnew. unfold format_alert. rewrite Hold, Hnew.
  cbv [mbind res_bind Py.bind Py.num mret res_ret].
  exists ((if Py.ltb (PriceAlert.change_percent a) Py.zero
           then lit_down else lit_up)
          ++ Py.lit " **" ++ PriceAlert.product a ++ Py.lit "**" ++ newline),
         (Py.lit " "
          ++ Py.lit "(" ++ Py.format_f true 1 (PriceAlert.change_percent a)
          ++ Py.lit "%)" ++ newline
          ++ Py.lit "   Type: " ++ alert_type_str (PriceAlert.alert_type a)
          ++ newline
          ++ Py.lit "   Link: " ++ PriceAlert.url a ++ newline).
  f_equal. by rewrite <- !app_assoc.
Qed.

(** X15.  Whatever stands before the first digit is ignored: a text and
    the same text after any prefix without a decimal digit (a currency
    sign, a label, a minus sign, commas, dots) have the same price. *)
Theorem X15_text_before_first_digit_is_ignored prefix text :
  (∀ c, c ∈ prefix → Py.isdecimal c = false) →
  ∃ price currency currency',
    _parse_price (Some (prefix ++ text)) = Py.Ok (price, currency)
    ∧ _parse_price (Some text) = Py.Ok (price, currency').
Proof.
  intros Hprefix. unfold _parse_price. cbv zeta.
  rewrite !re_search_strip, remove_char_app.
  rewrite re_search_skip by by apply remove_comma_no_digit.
  destruct (re_search (Py.remove_char comma text)) as [group|];
    [|eexists _, _, _; split; reflexivity].
  destruct (Py.float_of_str _) as [x|[]] eqn:Ef;
    try (eexists _, _, _; split; reflexivity).
  all: unfold Py.float_of_str in Ef;
    destruct (Py.digits_value _ _); [|done];
    by destruct (_ =? _)%nat.
Qed.

(** X16.  A plain number is read whole: for a text made of decimal digits
    (at least one), a dot and decimal digits, after any prefix without a
    digit, the price is the binary64 value nearest to that decimal number,
    the digits before and after the dot read as one integer [n] scaled by
    the number of digits after the dot. *)
Theorem X16_plain_number_is_read_whole prefix ip fp :
  (∀ c, c ∈ prefix → Py.isdecimal c = false) →
  decimals ip → ip ≠ [] → decimals fp →
  ∃ n currency,
    Py.digits_value 0 (ip ++ fp) = Some n
    ∧ _parse_price (Some (prefix ++ ip ++ Py.dot :: fp))
      = Py.Ok (Some (Py.of_decimal n (length fp)), currency).
Proof.
  intros Hprefix Hip Hne Hfp.
  destruct (digits_value_decimals (ip ++ fp) 0%N) as [n Hn];
    [by apply Forall_app|].
  destruct (_parse_price_plain prefix ip fp n) as [currency H]; try done.
  by exists n, currency.
Qed.

(** X17.  A price with two decimals comes back as written.  For every
    amount of [n] hundredths below 2^51, the text [two_decimals n], after
    any prefix without a digit, parses to a price that [.2f] prints as
    [two_decimals n] again; and an alert whose old and new price are such
    prices shows both numerals in its message. *)
Theorem X17_two_decimal_price_round_trip prefix n :
  (∀ c, c ∈ prefix → Py.isdecimal c = false) →
  (n < 2 ^ 51)%N →
  ∃ x currency,
    _parse_price (Some (prefix ++ two_decimals n)) = Py.Ok (Some x, currency)
    ∧ Py.format_f false 2 x = two_decimals n
    ∧ ∀ a n' x',
        (n' < 2 ^ 51)%N → x' = Py.of_decimal n' 2 →
        PriceAlert.old_price a = Some x → PriceAlert.new_price a = Some x' →
        ∃ before after,
          format_alert a
          = Py.Ok (before ++ Py.lit "   $" ++ two_decimals n ++ Py.lit " "
                     ++ lit_arrow ++ Py.lit " $" ++ two_decimals n'
                     ++ after).
Proof.
  intros Hprefix Hn.
  destruct (two_decimals_spec n) as (ip & fp & E & Hip & Hne & Hfp & Hlen & Hv).
  destruct (_parse_price_plain prefix ip fp n) as [currency H]; try done.
  exists (Py.of_decimal n 2), currency. rewrite E, H, Hlen.
  split; [done|]. rewrite <- E.
  assert (Hfmt : ∀ k, (k < 2 ^ 51)%N →
            Py.format_f false 2 (Py.of_decimal k 2) = two_decimals k)
    by (intros k Hk; by apply format_hundredths).
  split; [by apply Hfmt|].
  intros a n' x' Hn' -> Hold Hnew.
  destruct (format_alert_layout a _ _ Hold Hnew) as (before & after & ->).
  rewrite !Hfmt by done. by exists before, after.
Qed.

End PlainNumbers.

(* ===================================================================== *)
(** ** Properties of the alert message                                     *)
(* ===================================================================== *)

Section MessageFacts.

Implicit Types (a : PriceAlert.t) (alerts : list PriceAlert.t).

Lemma format_alert_priced a :
  priced_alert a → ∃ message, format_alert a = Py.Ok message.
Proof.
  intros [[old Hold] [new Hnew]]. unfold format_alert.
  rewrite Hold, Hnew. by eexists.
Qed.

Lemma format_alert_unpriced a :
  ¬ priced_alert a → format_alert a = Py.Raise Py.TypeError.
Proof.
  intros H. unfold format_alert, priced_alert in *.
  destruct (PriceAlert.old_price a) as [old|]; [|done].
  destruct (PriceAlert.new_price a) as [new|]; [|done].
  exfalso. apply H. by split.
Qed.

Lemma format_alerts_priced alerts :
  Forall priced_alert alerts →
  ∃ messages, format_alerts alerts = Py.Ok messages
              ∧ length messages = length alerts.
Proof.
  induction 1 as [|a alerts Ha _ (messages & IH & Hlen)]; simpl.
  - by exists [].
  - destruct (format_alert_priced a Ha) as [message ->]. rewrite IH. simpl.
    exists (message :: messages). simpl. by rewrite Hlen.
Qed.

Lemma format_alerts_unpriced alerts :
  Exists (λ a, ¬ priced_alert a) alerts →
  format_alerts alerts = Py.Raise Py.TypeError.
Proof.
  induction alerts as [|a alerts IH]; intros H; [by inversion H|].
  simpl.
  destruct (format_alert a) as [message|e] eqn:Ea.
  - apply Exists_cons in H as [H|H].
    + by rewrite (format_alert_unpriced a H) in Ea.
    + simpl. by rewrite IH.
  - unfold format_alert in Ea.
    destruct (PriceAlert.old_price a); [|by injection Ea as <-].
    destruct (PriceAlert.new_price a); [done|by injection Ea as <-].
Qed.

Lemma format_alert_message_outcomes alerts :
  format_alert_message [] = Py.Ok []
  ∧ (alerts ≠ [] → Forall priced_alert alerts →
     ∃ rest, format_alert_message alerts = Py.Ok (lit_header ++ rest))
  ∧ (Exists (λ a, ¬ priced_alert a) alerts →
     format_alert_message alerts = Py.Raise Py.TypeError).
Proof.
  split; [done|]. split.
  - intros Hne Hall. unfold format_alert_message.
    destruct alerts as [|a alerts]; [done|].
    destruct (format_alerts_priced _ Hall) as (messages & -> & Hlen). simpl.
    destruct messages as [|m messages]; [done|]. by eexists.
  - intros Hex. unfold format_alert_message.
    destruct alerts as [|a alerts]; [by inversion Hex|].
    by rewrite format_alerts_unpriced.
Qed.

(** X12.  The message of an empty list of alerts is the empty string.
    For a non-empty list whose alerts all have both prices the message
    starts with the header line and is never empty; if some alert lacks a
    price, formatting raises TypeError and no message is produced. *)
Theorem X12_alert_message_outcomes alerts :
  format_alert_message [] = Py.Ok []
  ∧ (alerts ≠ [] → Forall priced_alert alerts →
     ∃ rest, format_alert_message alerts = Py.Ok (lit_header ++ rest))
  ∧ (Exists (λ a, ¬ priced_alert a) alerts →
     format_alert_message alerts = Py.Raise Py.TypeError).
Proof. apply format_alert_message_outcomes. Qed.

(** X13.  The alerts a completed cycle returns can always be formatted:
    [format_alert_message] does not raise on them, and gives the empty
    string exactly when the cycle raised no alert. *)
Theorem X13_cycle_alerts_can_be_formatted md5_hexdigest self world save_error
    alerts :
  (check_all md5_hexdigest self world save_error).1 = Py.Ok alerts →
  ∃ message, format_alert_message alerts = Py.Ok message
             ∧ (message = [] ↔ alerts = []).
Proof.
  intros H%check_all_Ok.
  destruct (loop_alerts md5_hexdigest (zip (products self) world) []
              (history self) alerts H) as (new & visits & -> & _ & Hall).
  simpl.
  assert (Hp : Forall priced_alert new).
  { clear -Hall. induction Hall as [|a po new visits Ha _ IH]; [done|].
    constructor; [|done]. by destruct Ha as (_ & _ & _ & ? & ?). }
  destruct new as [|a new]; [by exists []|].
  destruct (proj1 (proj2 (format_alert_message_outcomes (a :: new))) ltac:(done) Hp)
    as [rest ->].
  eexists. split; [done|]. split; [|done].
  unfold lit_header. simpl. done.
Qed.

End MessageFacts.

(* ===================================================================== *)
(** ** The number and the currency the parser reads                        *)
(* ===================================================================== *)

Section FirstNumber.

Implicit Types (s t text prefix ip fp rest sub : Py.str) (c : Py.codepoint).

(** *** [in] is the occurrence of consecutive characters *)

Lemma startswith_spec s sub :
  Py.startswith s sub = true ↔ ∃ after, s = sub ++ after.
Proof.
  revert s. induction sub as [|p sub IH]; intros s; simpl.
  - destruct s; (split; [intros _; by eexists|done]).
  - destruct s as [|c s].
    + split; [done|]. by intros [after [=]].
    + simpl. rewrite andb_true_iff, N.eqb_eq, IH. split.
      * intros [-> [after ->]]. by exists after.
      * intros [after [= -> ->]]. split; [done|by exists after].
Qed.

Lemma contains_spec sub s : Py.contains sub s = true ↔ occurs sub s.
Proof.
  induction s as [|c s IH].
  - cbn [Py.contains]. rewrite orb_false_r, startswith_spec. split.
    + intros [after H]. by exists [], after.
    + intros ([|? ?] & after & H); [by exists after|done].
  - cbn [Py.contains]. rewrite orb_true_iff, IH, startswith_spec. split.
    + intros [[after H]|(before & after & ->)].
      * by exists [], after.
      * by exists (c :: before), after.
    + intros ([|c' before] & after & H).
      * left. by exists after.
      * right. injection H as -> ->. by exists before, after.
Qed.

Lemma contains_false sub s : Py.contains sub s = false ↔ ¬ occurs sub s.
Proof. rewrite <- contains_spec. by destruct (Py.contains sub s). Qed.

(** *** Stripping keeps every occurrence of a string without blanks *)

Lemma lstrip_app_keep s c t :
  Py.isspace c = false → Py.lstrip (s ++ c :: t) = Py.lstrip s ++ c :: t.
Proof.
  intros Hc. induction s as [|x s IH]; simpl; [by rewrite Hc|].
  by destruct (Py.isspace x).
Qed.

Lemma rstrip_app_keep s c t :
  Py.isspace c = false → Py.rstrip (s ++ c :: t) = s ++ c :: Py.rstrip t.
Proof.
  intros Hc. unfold Py.rstrip.
  rewrite reverse_app, reverse_cons, <- app_assoc. simpl.
  rewrite lstrip_app_keep by done.
  by rewrite reverse_app, reverse_cons, reverse_involutive, <- app_assoc.
Qed.

Lemma strip_keep1 before c after :
  Py.isspace c = false →
  Py.strip (before ++ c :: after) = Py.lstrip before ++ c :: Py.rstrip after.
Proof.
  intros Hc. unfold Py.strip. rewrite lstrip_app_keep by done.
  by apply rstrip_app_keep.
Qed.

Lemma strip_keep2 before c mid z after :
  Py.isspace c = false → Py.isspace z = false →
  Py.strip (before ++ c :: mid ++ z :: after)
  = Py.lstrip before ++ c :: mid ++ z :: Py.rstrip after.
Proof.
  intros Hc Hz. unfold Py.strip. rewrite lstrip_app_keep by done.
  change (c :: mid ++ z :: after) with ((c :: mid) ++ z :: after).
  rewrite app_assoc, rstrip_app_keep by done. by rewrite <- app_assoc.
Qed.

Lemma occurs_strip sub text :
  sub ≠ [] → Forall (λ c, Py.isspace c = false) sub →
  occurs sub (Py.strip text) ↔ occurs sub text.
Proof.
  intros Hne Hsub. split.
  - intros (before & after & H).
    destruct (strip_decompose text) as (ws1 & ws2 & _ & _ & Et).
    exists (ws1 ++ before), (after ++ ws2).
    rewrite Et, H. by rewrite <- !app_assoc.
  - intros (before & after & ->).
    destruct sub as [|c sub]; [done|].
    apply Forall_cons in Hsub as [Hc Hsub].
    exists (Py.lstrip before), (Py.rstrip after).
    induction sub as [|z sub _] using rev_ind.
    + simpl. by rewrite strip_keep1.
    + apply Forall_app in Hsub as [_ [Hz _]%Forall_cons].
      replace (before ++ (c :: sub ++ [z]) ++ after)
        with (before ++ c :: sub ++ z :: after)
        by (simpl; by rewrite <- app_assoc).
      rewrite strip_keep2 by done. simpl. by rewrite <- app_assoc.
Qed.

(** The currency returned is the one detected in the stripped text, with
    or without a price. *)
Lemma _parse_price_currency text price currency :
  _parse_price (Some text) = Py.Ok (price, currency) →
  currency = detect_currency (Py.strip text).
Proof.
  unfold _parse_price. cbv zeta.
  destruct (re_search _) as [group|]; [|by intros [= _ <-]].
  destruct (Py.float_of_str _) as [x|[]]; try done; by intros [= _ <-].
Qed.

(** The literals are searched in the order EUR, GBP, JPY, in the text as
    it was given. *)
Lemma detect_currency_strip text :
  let currency := detect_currency (Py.strip text) in
  (occurs lit_eur text → currency = Py.lit "EUR")
  ∧ (¬ occurs lit_eur text → occurs lit_gbp text → currency = Py.lit "GBP")
  ∧ (¬ occurs lit_eur text → ¬ occurs lit_gbp text → occurs lit_jpy text →
     currency = Py.lit "JPY")
  ∧ (¬ occurs lit_eur text → ¬ occurs lit_gbp text → ¬ occurs lit_jpy text →
     currency = Py.lit "USD").
Proof.
  cbv zeta. unfold detect_currency.
  rewrite <- (occurs_strip lit_eur text), <- (occurs_strip lit_gbp text),
    <- (occurs_strip lit_jpy text) by (done || by repeat constructor).
  rewrite <- !contains_spec.
  destruct (Py.contains lit_eur _), (Py.contains lit_gbp _),
    (Py.contains lit_jpy _); naive_solver.
Qed.

(** *** The first number of the text *)

Lemma take_drop_while_ahead (f : Py.codepoint → bool) s t :
  Forall (λ c, f c = true) s →
  match t with [] => True | c :: _ => f c = false end →
  take_while f (s ++ t) = s ∧ drop_while f (s ++ t) = t.
Proof.
  intros Hs Ht. induction Hs as [|c s Hc _ [IH1 IH2]]; simpl.
  - destruct t as [|c t]; [done|]. simpl. by rewrite Ht.
  - by rewrite Hc, IH1, IH2.
Qed.

Lemma decimals_class s : decimals s → Forall (λ c, digit_or_comma c = true) s.
Proof.
  intros H. eapply Forall_impl; [exact H|].
  intros c Hc. unfold digit_or_comma. by rewrite Hc.
Qed.

(** The search passes over a prefix without digits and commas and stops
    at the first digit. *)
Lemma re_search_first prefix c s :
  digitless prefix → comma ∉ prefix → Py.isdecimal c = true →
  re_search (prefix ++ c :: s) = Some (match_here (c :: s)).
Proof.
  intros Hp Hcomma Hc. rewrite re_search_skip.
  - cbn [re_search]. unfold digit_or_comma at 1. by rewrite Hc.
  - apply Forall_forall. intros x Hx. unfold digit_or_comma.
    unfold digitless in Hp. rewrite Forall_forall in Hp.
    rewrite (Hp x Hx). simpl.
    apply N.eqb_neq. by intros ->.
Qed.

Lemma match_here_fraction ip fp rest :
  decimals ip → decimals fp → no_digit_ahead rest →
  match_here (ip ++ Py.dot :: fp ++ rest) = ip ++ Py.dot :: fp.
Proof.
  intros Hip Hfp Hrest. unfold match_here.
  destruct (take_drop_while_decimals ip (fp ++ rest) Hip) as [-> ->].
  rewrite N.eqb_refl.
  by destruct (take_drop_while_ahead Py.isdecimal fp rest Hfp Hrest) as [-> _].
Qed.

Lemma match_here_whole ip rest :
  decimals ip → comma ∉ rest → no_number_ahead rest →
  match_here (ip ++ rest) = ip.
Proof.
  intros Hip Hcomma Hrest. unfold match_here.
  destruct (take_drop_while_ahead digit_or_comma ip rest) as [-> ->].
  - by apply decimals_class.
  - destruct rest as [|c rest]; [done|]. destruct Hrest as [Hc _].
    unfold digit_or_comma. rewrite Hc. simpl. apply N.eqb_neq.
    intros ->. apply Hcomma. by left.
  - destruct rest as [|c rest]; [done|]. destruct Hrest as [_ Hc].
    apply N.eqb_neq in Hc. by rewrite Hc.
Qed.

(** The text is searched with its commas removed: of what is then left,
    the digits that come first, with the dot and the digits right after
    them, are the number. *)
Lemma _parse_price_first_fraction text prefix ip fp rest :
  Py.remove_char comma text = prefix ++ ip ++ Py.dot :: fp ++ rest →
  digitless prefix → decimals ip → ip ≠ [] → decimals fp →
  no_digit_ahead rest →
  ∃ n, Py.digits_value 0 (ip ++ fp) = Some n
       ∧ _parse_price (Some text)
         = Py.Ok (Some (Py.of_decimal n (length fp)),
                  detect_currency (Py.strip text)).
Proof.
  intros Et Hprefix Hip Hne Hfp Hrest.
  assert (Hcomma : comma ∉ prefix).
  { intros Hin. apply (remove_char_absent comma text). rewrite Et.
    apply elem_of_app. by left. }
  destruct (digits_value_decimals (ip ++ fp) 0%N) as [n Hn];
    [by apply Forall_app|].
  assert (Hnc : comma ∉ ip ++ Py.dot :: fp).
  { rewrite not_elem_of_app, not_elem_of_cons.
    split; [by apply decimals_no_comma|].
    split; [done|by apply decimals_no_comma]. }
  exists n. split; [done|].
  unfold _parse_price. cbv zeta. rewrite re_search_strip, Et.
  destruct ip as [|c ip]; [done|].
  change ((c :: ip) ++ Py.dot :: fp ++ rest)
    with (c :: (ip ++ Py.dot :: fp ++ rest)).
  rewrite re_search_first by (done || by inversion Hip).
  change (c :: (ip ++ Py.dot :: fp ++ rest))
    with ((c :: ip) ++ Py.dot :: fp ++ rest).
  rewrite match_here_fraction by done.
  rewrite remove_char_id by done.
  unfold Py.float_of_str.
  destruct (before_dot_decimals (c :: ip) fp Hip) as [-> ->].
  by rewrite Hn.
Qed.

Lemma _parse_price_first_whole text prefix ip rest :
  Py.remove_char comma text = prefix ++ ip ++ rest →
  digitless prefix → decimals ip → ip ≠ [] → no_number_ahead rest →
  ∃ n, Py.digits_value 0 ip = Some n
       ∧ _parse_price (Some text)
         = Py.Ok (Some (Py.of_decimal n 0), detect_currency (Py.strip text)).
Proof.
  intros Et Hprefix Hip Hne Hrest.
  assert (Hcomma : comma ∉ prefix).
  { intros Hin. apply (remove_char_absent comma text). rewrite Et.
    apply elem_of_app. by left. }
  assert (Hcomma' : comma ∉ rest).
  { intros Hin. apply (remove_char_absent comma text). rewrite Et.
    rewrite !elem_of_app. by right; right. }
  destruct (digits_value_decimals ip 0%N Hip) as [n Hn].
  exists n. split; [done|].
  unfold _parse_price. cbv zeta. rewrite re_search_strip, Et.
  destruct ip as [|c ip]; [done|].
  change ((c :: ip) ++ rest) with (c :: (ip ++ rest)).
  rewrite re_search_first by (done || by inversion Hip).
  change (c :: (ip ++ rest)) with ((c :: ip) ++ rest).
  rewrite match_here_whole by done.
  rewrite remove_char_id by by apply decimals_no_comma.
  unfold Py.float_of_str.
  destruct (before_dot_decimals_only (c :: ip) Hip) as [-> ->].
  by rewrite app_nil_r, Hn.
Qed.

(** C5.  The text "$1,234.56" parses to the price 1234.56 and the currency
    USD.  A text without a decimal digit has no numeric token: the price is
    absent; a text with a decimal digit always has a price.  The price is
    read from the text with its commas removed, and it is the first number
    there: the first digits, with the dot and the digits that follow them
    directly if there are any, converted as a decimal literal; what comes
    after that, later numbers included, is not looked at.  With or without
    a price, the currency returned is the one detected: EUR, GBP or JPY
    for the first of the three literals of the source, in this order,
    that occurs in the text, and USD when none does. *)
Theorem C5_parse_price_number :
  _parse_price (Some (Py.lit "$1,234.56"))
  = Py.Ok (Some (Py.of_prim 1234.56), Py.lit "USD")
  ∧ (∀ text,
       (∀ c, c ∈ text → Py.isdecimal c = false) →
       _parse_price (Some text)
       = Py.Ok (None, detect_currency (Py.strip text)))
  ∧ (∀ text,
       (∃ c, c ∈ text ∧ Py.isdecimal c = true) →
       ∃ price, _parse_price (Some text)
                = Py.Ok (Some price, detect_currency (Py.strip text)))
  ∧ (∀ text prefix ip fp rest,
       Py.remove_char comma text = prefix ++ ip ++ Py.dot :: fp ++ rest →
       digitless prefix → decimals ip → ip ≠ [] → decimals fp →
       no_digit_ahead rest →
       ∃ n, Py.digits_value 0 (ip ++ fp) = Some n
            ∧ _parse_price (Some text)
              = Py.Ok (Some (Py.of_decimal n (length fp)),
                       detect_currency (Py.strip text)))
  ∧ (∀ text prefix ip rest,
       Py.remove_char comma text = prefix ++ ip ++ rest →
       digitless prefix → decimals ip → ip ≠ [] → no_number_ahead rest →
       ∃ n, Py.digits_value 0 ip = Some n
            ∧ _parse_price (Some text)
              = Py.Ok (Some (Py.of_decimal n 0),
                       detect_currency (Py.strip text)))
  ∧ (∀ text price currency,
       _parse_price (Some text) = Py.Ok (price, currency) →
       (occurs lit_eur text → currency = Py.lit "EUR")
       ∧ (¬ occurs lit_eur text → occurs lit_gbp text →
          currency = Py.lit "GBP")
       ∧ (¬ occurs lit_eur text → ¬ occurs lit_gbp text →
          occurs lit_jpy text → currency = Py.lit "JPY")
       ∧ (¬ occurs lit_eur text → ¬ occurs lit_gbp text →
          ¬ occurs lit_jpy text → currency = Py.lit "USD")).
Proof.
  split; [by vm_compute|]. split; [apply _parse_price_no_digit|].
  split; [|split; [apply _parse_price_first_fraction|
                   split; [apply _parse_price_first_whole|]]].
  - intros text H. destruct (_parse_price_digit text H) as (price & ? & _).
    by exists price.
  - intros text price currency H.
    apply _parse_price_currency in H as ->. apply detect_currency_strip.
Qed.

End FirstNumber.

Lemma C5_parse_price_number_witness :
  let two := Py.lit "was $1,234.56, now $999.99" in
  let pounds := Py.lit "2 for " ++ lit_gbp ++ Py.lit "5" in
  (∀ c, c ∈ Py.lit "N/A" → Py.isdecimal c = false)
  ∧ _parse_price (Some (Py.lit "N/A")) = Py.Ok (None, Py.lit "USD")
  ∧ (∃ c, c ∈ Py.lit "from 5" ∧ Py.isdecimal c = true)
  ∧ (∃ price, _parse_price (Some (Py.lit "from 5"))
              = Py.Ok (Some price, Py.lit "USD"))
  ∧ Py.remove_char comma two
    = Py.lit "was $" ++ Py.lit "1234" ++ Py.dot :: Py.lit "56"
        ++ Py.lit " now $999.99"
  ∧ (∃ n, Py.digits_value 0 (Py.lit "1234" ++ Py.lit "56") = Some n
          ∧ _parse_price (Some two)
            = Py.Ok (Some (Py.of_decimal n 2), Py.lit "USD"))
  ∧ ¬ occurs lit_eur pounds
  ∧ occurs lit_gbp pounds
  ∧ (∃ n, Py.digits_value 0 (Py.lit "2") = Some n
          ∧ _parse_price (Some pounds)
            = Py.Ok (Some (Py.of_decimal n 0), Py.lit "GBP")).
Proof.
  cbv zeta.
  assert (H : ∀ c, c ∈ Py.lit "N/A" → Py.isdecimal c = false).
  { intros c Hc. apply list_elem_of_In in Hc. simpl in Hc.
    destruct Hc as [<-|[<-|[<-|[]]]]; reflexivity. }
  assert (H' : ∃ c, c ∈ Py.lit "from 5" ∧ Py.isdecimal c = true).
  { exists 53%N. split; [|reflexivity].
    apply list_elem_of_In. simpl. tauto. }
  assert (Heur : ¬ occurs lit_eur (Py.lit "2 for " ++ lit_gbp ++ Py.lit "5")).
  { apply contains_false. reflexivity. }
  assert (Hgbp : occurs lit_gbp (Py.lit "2 for " ++ lit_gbp ++ Py.lit "5")).
  { exists (Py.lit "2 for "), (Py.lit "5"). reflexivity. }
  destruct C5_parse_price_number as (_ & P2 & P3 & P4 & P5 & P6).
  split; [exact H|]. split; [exact (P2 (Py.lit "N/A") H)|].
  split; [exact H'|]. split; [exact (P3 (Py.lit "from 5") H')|].
  split; [reflexivity|]. split.
  - apply (P4 (Py.lit "was $1,234.56, now $999.99") (Py.lit "was $")
             (Py.lit "1234") (Py.lit "56") (Py.lit " now $999.99")).
    + reflexivity.
    + repeat constructor.
    + repeat constructor.
    + discriminate.
    + repeat constructor.
    + reflexivity.
  - split; [exact Heur|]. split; [exact Hgbp|].
    destruct (P5 (Py.lit "2 for " ++ lit_gbp ++ Py.lit "5") []
                (Py.lit "2") (Py.lit " for " ++ lit_gbp ++ Py.lit "5"))
      as (n & Hn & Hp).
    + reflexivity.
    + constructor.
    + repeat constructor.
    + discriminate.
    + split; [reflexivity|discriminate].
    + exists n. split; [exact Hn|].
      destruct (P6 _ _ _ Hp) as (_ & Hcur & _).
      rewrite Hp, (Hcur Heur Hgbp). reflexivity.
Defined.

(* ===================================================================== *)
(** ** The further properties at concrete inputs                           *)
(* ===================================================================== *)

Lemma X1_parse_price_ignores_surrounding_blanks_witness :
  spaces [32; 9]%N ∧ spaces [10; 160]%N
  ∧ _parse_price (Some ([32; 9]%N ++ Py.lit "$5" ++ [10; 160]%N))
    = _parse_price (Some (Py.lit "$5")).
Proof.
  assert (H1 : spaces [32; 9]%N) by (repeat constructor).
  assert (H2 : spaces [10; 160]%N) by (repeat constructor).
  split; [exact H1|]. split; [exact H2|].
  exact (X1_parse_price_ignores_surrounding_blanks _ (Py.lit "$5") _ H1 H2).
Defined.

Lemma X3_unchanged_price_no_alert_witness :
  let product := sample_product (Some (dec 2500 2)) true (dec 50 1) in
  let prior := sample_record (Some (dec 1000 2)) "t0" in
  let current := sample_record (Some (dec 1000 2)) "t1" in
  let h : gmap (list N) (list PriceRecord.t) :=
    {[ _get_product_key sample_digest sample_url := [prior] ]} in
  last (records_of h (_get_product_key sample_digest sample_url)) = Some prior
  ∧ Py.gtb (Product.alert_threshold_percent product) Py.zero = true
  ∧ _check_alert_conditions sample_digest h product current = Py.Ok None.
Proof.
  cbv zeta. split; [vm_compute; reflexivity|]. split; [reflexivity|].
  apply (X3_unchanged_price_no_alert sample_digest _ _
           (sample_record (Some (dec 1000 2)) "t0") _ (dec 1000 2));
    vm_compute; reflexivity.
Defined.

Lemma X4_alert_kind_is_justified_witness :
  let product := sample_product (Some (dec 2500 2)) false (dec 50 1) in
  let h : gmap (list N) (list PriceRecord.t) :=
    {[ _get_product_key sample_digest sample_url
       := [sample_record (Some (dec 2999 2)) "t0"] ]} in
  let current := sample_record (Some (dec 2499 2)) "t1" in
  let a := sample_alert (dec 2999 2) (dec 2499 2)
             (Py.of_prim (-16.672224074691563)) kind_target_reached "t1" in
  _check_alert_conditions sample_digest h product current = Py.Ok (Some a)
  ∧ ∃ target lp cur,
      Product.target_price product = Some target
      ∧ Py.truthy target = true
      ∧ PriceAlert.old_price a = Some lp
      ∧ PriceAlert.new_price a = Some cur
      ∧ Py.leb cur target = true
      ∧ Py.gtb lp target = true.
Proof.
  cbv zeta.
  assert (H : _check_alert_conditions sample_digest
                {[ _get_product_key sample_digest sample_url
                   := [sample_record (Some (dec 2999 2)) "t0"] ]}
                (sample_product (Some (dec 2500 2)) false (dec 50 1))
                (sample_record (Some (dec 2499 2)) "t1")
              = Py.Ok (Some (sample_alert (dec 2999 2) (dec 2499 2)
                               (Py.of_prim (-16.672224074691563))
                               kind_target_reached "t1")))
    by (vm_compute; reflexivity).
  split; [exact H|].
  exact (proj2 (proj2 (proj2
           (X4_alert_kind_is_justified sample_digest _ _ _ _ H)))).
Defined.

Lemma X5_zero_target_is_no_target_witness :
  Py.truthy (S754_zero true) = false
  ∧ _check_alert_conditions sample_digest
      {[ _get_product_key sample_digest sample_url
         := [sample_record (Some (dec 1000 2)) "t0"] ]}
      (Product.mk sample_url sample_name (Py.lit ".price")
         (Some (S754_zero true)) false (dec 50 1))
      (sample_record (Some (dec 900 2)) "t1")
    = Py.Ok (Some (sample_alert (dec 1000 2) (dec 900 2) (Py.of_prim (-10))
                     kind_drop "t1")).
Proof.
  split; [reflexivity|].
  rewrite (X5_zero_target_is_no_target sample_digest) by reflexivity.
  vm_compute; reflexivity.
Defined.

Lemma X7_at_most_one_alert_per_product_witness :
  (check_all sample_digest sample_monitor sample_world None).1
  = Py.Ok [sample_drop_alert]
  ∧ ∃ visits,
      visits `sublist_of` zip (products sample_monitor) sample_world
      ∧ Forall2 alert_of_visit [sample_drop_alert] visits.
Proof.
  assert (H : (check_all sample_digest sample_monitor sample_world None).1
              = Py.Ok [sample_drop_alert]) by (vm_compute; reflexivity).
  split; [exact H|].
  exact (proj1 (X7_at_most_one_alert_per_product sample_digest _ _ _ _ H)).
Defined.

Lemma X8_history_after_cycle_witness :
  (check_all sample_digest sample_monitor sample_world None).1
  = Py.Ok [sample_drop_alert]
  ∧ scraped sample_digest (_get_product_key sample_digest sample_url)
      (zip (products sample_monitor) sample_world)
    = [sample_record (Some (dec 1000 2)) "t1";
       sample_record (Some (dec 900 2)) "t2"]
  ∧ last (get_price_history sample_digest
            (check_all sample_digest sample_monitor sample_world None).2
            sample_url)
    = Some (sample_record (Some (dec 900 2)) "t2").
Proof.
  assert (H : (check_all sample_digest sample_monitor sample_world None).1
              = Py.Ok [sample_drop_alert]) by (vm_compute; reflexivity).
  split; [exact H|]. split; [vm_compute; reflexivity|].
  destruct (X8_history_after_cycle sample_digest _ _ _ _ sample_url H)
    as [_ H2].
  destruct H2 as (_ & _ & H3); [vm_compute; discriminate|].
  exact H3.
Defined.


Lemma X10_unpriced_record_aborts_cycle_witness :
  let product := sample_product None true (dec 50 1) in
  let h : gmap (list N) (list PriceRecord.t) :=
    {[ _get_product_key sample_digest sample_url
       := [sample_record None "t0"] ]} in
  PriceRecord.price (sample_record None "t0") = None
  ∧ check_all_loop sample_digest
      ([] ++ (product, sample_text "$10.00" "t1")
          :: [(product, sample_text "$9.00" "t2")]) [] h
    = (Py.Raise Py.TypeError, h).
Proof.
  cbv zeta. split; [reflexivity|].
  apply (X10_unpriced_record_aborts_cycle sample_digest [] _ _ _ [] _ [] _
           (sample_record None "t0")
           (sample_record (Some (dec 1000 2)) "t1"));
    vm_compute; reflexivity.
Defined.

Lemma X11_add_product_extends_cycle_witness :
  let p := sample_product None true (dec 50 1) in
  length [sample_text "$10.00" "t1"] = length (products (mk_monitor [p] ∅))
  ∧ (check_all sample_digest (add_product (mk_monitor [p] ∅) p)
       ([sample_text "$10.00" "t1"] ++ [sample_text "$9.00" "t2"]) None).1
    = Py.Ok [sample_drop_alert].
Proof.
  cbv zeta. split; [reflexivity|].
  rewrite (X11_add_product_extends_cycle sample_digest) by reflexivity.
  vm_compute; reflexivity.
Defined.

Lemma X12_alert_message_outcomes_witness :
  [sample_drop_alert] ≠ []
  ∧ Forall priced_alert [sample_drop_alert]
  ∧ (∃ rest, format_alert_message [sample_drop_alert]
             = Py.Ok (lit_header ++ rest))
  ∧ Exists (λ a, ¬ priced_alert a)
      [PriceAlert.mk sample_name sample_url None (Some (dec 900 2))
         Py.zero kind_drop (Py.lit "t2")]
  ∧ format_alert_message
      [PriceAlert.mk sample_name sample_url None (Some (dec 900 2))
         Py.zero kind_drop (Py.lit "t2")]
    = Py.Raise Py.TypeError.
Proof.
  assert (H1 : [sample_drop_alert] ≠ []) by discriminate.
  assert (H2 : Forall priced_alert [sample_drop_alert]).
  { repeat constructor; simpl; eexists; reflexivity. }
  assert (H3 : Exists (λ a, ¬ priced_alert a)
                 [PriceAlert.mk sample_name sample_url None (Some (dec 900 2))
                    Py.zero kind_drop (Py.lit "t2")]).
  { left. intros [[x Hx] _]. discriminate Hx. }
  split; [exact H1|]. split; [exact H2|]. split.
  - exact (proj1 (proj2 (X12_alert_message_outcomes _)) H1 H2).
  - split; [exact H3|].
    exact (proj2 (proj2 (X12_alert_message_outcomes _)) H3).
Defined.

Lemma X13_cycle_alerts_can_be_formatted_witness :
  (check_all sample_digest sample_monitor sample_world None).1
  = Py.Ok [sample_drop_alert]
  ∧ ∃ message, format_alert_message [sample_drop_alert] = Py.Ok message
               ∧ (message = [] ↔ [sample_drop_alert] = []).
Proof.
  assert (H : (check_all sample_digest sample_monitor sample_world None).1
              = Py.Ok [sample_drop_alert]) by (vm_compute; reflexivity).
  split; [exact H|].
  exact (X13_cycle_alerts_can_be_formatted sample_digest _ _ _ _ H).
Defined.

Lemma X15_text_before_first_digit_is_ignored_witness :
  (∀ c, c ∈ Py.lit "-$" → Py.isdecimal c = false)
  ∧ ∃ price currency currency',
      _parse_price (Some (Py.lit "-$" ++ Py.lit "5.00"))
      = Py.Ok (price, currency)
      ∧ _parse_price (Some (Py.lit "5.00")) = Py.Ok (price, currency').
Proof.
  assert (H : ∀ c, c ∈ Py.lit "-$" → Py.isdecimal c = false).
  { intros c Hc. apply list_elem_of_In in Hc. simpl in Hc.
    destruct Hc as [<-|[<-|[]]]; reflexivity. }
  split; [exact H|].
  exact (X15_text_before_first_digit_is_ignored _ (Py.lit "5.00") H).
Defined.

Lemma X16_plain_number_is_read_whole_witness :
  (∀ c, c ∈ Py.lit "$" → Py.isdecimal c = false)
  ∧ decimals (Py.lit "12") ∧ Py.lit "12" ≠ [] ∧ decimals (Py.lit "5")
  ∧ ∃ n currency,
      Py.digits_value 0 (Py.lit "12" ++ Py.lit "5") = Some n
      ∧ _parse_price (Some (Py.lit "$" ++ Py.lit "12" ++ Py.dot :: Py.lit "5"))
        = Py.Ok (Some (Py.of_decimal n (length (Py.lit "5"))), currency).
Proof.
  assert (H : ∀ c, c ∈ Py.lit "$" → Py.isdecimal c = false).
  { intros c Hc. apply list_elem_of_In in Hc. simpl in Hc.
    destruct Hc as [<-|[]]; reflexivity. }
  assert (H1 : decimals (Py.lit "12")) by (repeat constructor).
  assert (H2 : Py.lit "12" ≠ []) by discriminate.
  assert (H3 : decimals (Py.lit "5")) by (repeat constructor).
  split; [exact H|]. split; [exact H1|]. split; [exact H2|].
  split; [exact H3|].
  exact (X16_plain_number_is_read_whole _ _ _ H H1 H2 H3).
Defined.

Lemma X17_two_decimal_price_round_trip_witness :
  (∀ c, c ∈ Py.lit "$" → Py.isdecimal c = false)
  ∧ (1234 < 2 ^ 51)%N
  ∧ two_decimals 1234 = Py.lit "12.34"
  ∧ ∃ x currency,
      _parse_price (Some (Py.lit "$" ++ two_decimals 1234))
      = Py.Ok (Some x, currency)
      ∧ Py.format_f false 2 x = two_decimals 1234.
Proof.
  assert (H : ∀ c, c ∈ Py.lit "$" → Py.isdecimal c = false).
  { intros c Hc. apply list_elem_of_In in Hc. simpl in Hc.
    destruct Hc as [<-|[]]; reflexivity. }
  assert (Hn : (1234 < 2 ^ 51)%N) by reflexivity.
  split; [exact H|]. split; [exact Hn|]. split; [reflexivity|].
  destruct (X17_two_decimal_price_round_trip (Py.lit "$") 1234 H Hn)
    as (x & currency & H1 & H2 & _).
  exists x, currency. split; [exact H1|exact H2].
Defined.
